(** * eduvpn: signature validation (crypto.py) and the NetworkManager
      control layer (nm.py)

    A shallow embedding of [eduvpn/crypto.py] and [eduvpn/nm.py].

    Python code that raises, logs and mutates module state is written in a
    small state-and-exception monad [Py S]: a computation takes the state and
    returns either a value or a raised exception, together with the new
    state.  Everything the code consumes from other packages (base64, PyNaCl,
    NetworkManager through GObject introspection, GLib's main loop, D-Bus,
    [eduvpn.settings], [eduvpn.storage]) is an interface: either a field of a
    class of primitives or part of the explicit state the functions run in. *)

From Stdlib Require Import Strings.Byte ZifyNat.
From stdpp Require Import base option list strings gmap.

Set Default Proof Using "Type".

(* ===================================================================== *)
(** * Python values, exceptions and the [Py] monad                        *)
(* ===================================================================== *)

(** [bytes] objects. *)
Abbreviation bytes := (list byte).

Global Instance byte_eq_dec : EqDecision byte.
Proof.
  intros x y. destruct (Byte.eqb x y) eqn:E.
  - left. by apply Byte.byte_dec_bl.
  - right. intros ->. by rewrite Byte.byte_dec_lb in E.
Defined.

(** The exception classes the two modules can see. *)
Inductive exception :=
| BadSignatureError          (* nacl.exceptions.BadSignatureError *)
| binascii_Error             (* raised by base64.b64decode *)
| ValueError
| TypeError
| GLib_Error                 (* a GError surfaced by an NM *_finish call *)
| Exception_.                (* a bare [Exception] *)

Global Instance exception_eq_dec : EqDecision exception.
Proof. solve_decision. Defined.

(** The result of running a Python expression: a value, or an exception
    travelling up the stack. *)
Inductive outcome (A : Type) :=
| Ok (a : A)
| Raise (e : exception).
Arguments Ok {A} a.
Arguments Raise {A} e.

Definition Py (S A : Type) : Type := S -> outcome A * S.

Definition ret {S A} (a : A) : Py S A := fun s => (Ok a, s).

Definition raise {S A} (e : exception) : Py S A := fun s => (Raise e, s).

Definition bind {S A B} (m : Py S A) (k : A -> Py S B) : Py S B :=
  fun s =>
    match m s with
    | (Ok a, s') => k a s'
    | (Raise e, s') => (Raise e, s')
    end.

(** [try: m] runs [m] and hands its outcome to the handler that follows, the
    way a [try] statement hands it to its [except]/[else]/[finally] arms. *)
Definition try_ {S A} (m : Py S A) : Py S (outcome A) :=
  fun s => let '(r, s') := m s in (Ok r, s').

Definition lift {S A} (r : outcome A) : Py S A := fun s => (r, s).

Definition get {S} : Py S S := fun s => (Ok s, s).
Definition modify {S} (f : S -> S) : Py S unit := fun s => (Ok tt, f s).

Declare Scope py_scope.
Delimit Scope py_scope with py.
Notation "x <- m ;; k" := (bind m (fun x => k))
  (at level 100, m at next level, right associativity) : py_scope.
Notation "m ;; k" := (bind m (fun _ => k))
  (at level 100, right associativity) : py_scope.
Open Scope py_scope.

(** Python truthiness of an [Optional[str]]: [None] and [''] are falsy. *)
Definition truthy_str (o : option string) : bool :=
  match o with
  | None => false
  | Some s => negb (String.eqb s "")
  end.

(* ===================================================================== *)
(** * crypto.py                                                           *)
(* ===================================================================== *)

(** What [crypto.py] imports: [base64.b64decode], PyNaCl's [VerifyKey]
    (its constructor and its [verify] method called as
    [f.verify(smessage=content, signature=decoded)]) and the list
    [eduvpn.settings.VERIFY_KEYS]. *)
Class Crypto := {
  VerifyKey : Type;
  VerifyKey_init : bytes -> outcome VerifyKey;
  verify : VerifyKey -> bytes -> bytes -> outcome bytes;
  b64decode : string -> outcome bytes;
  VERIFY_KEYS : list string;
}.

Module crypto.
Section with_primitives.
Context {P : Crypto}.

(** What the module leaves behind: the debug log, with the calls of the
  verification primitive interleaved in program order. *)
Inductive event :=
| Debug_trying (n : nat)          (* f"Trying {len(verifiers)} verifiers" *)
| Verify_call (f : VerifyKey) (smessage signature : bytes)
| Debug_used (f : VerifyKey)      (* f"Used signature {f}" *)
| Debug_skipping (f : VerifyKey). (* f"Skipping signature {f}" *)

(** Module state: the single slot of [@lru_cache(1)] on [make_verifiers]
  and the events so far (most recent last). *)
Record state := {
verifiers_cache : option (list VerifyKey);
events : list event;
}.

Definition emit (e : event) : Py state unit :=
modify (fun s => {| verifiers_cache := verifiers_cache s;
                    events := events s ++ [e] |}).

(** [b64decode(x)[10:]]: a slice never raises, a blob of ten bytes or
  fewer gives [b'']. *)
Definition strip_envelope (x : string) : outcome bytes :=
match b64decode x with
| Ok d => Ok (drop 10 d)
| Raise e => Raise e
end.

(** [make_verifier(key)] *)
Definition make_verifier (key : string) : outcome VerifyKey :=
match strip_envelope key with
| Ok decoded => VerifyKey_init decoded
| Raise e => Raise e
end.

(** The list comprehension [[VerifyKey(b64decode(k)[10:]) for k in keys]]:
  the first element that raises aborts the whole list. *)
Fixpoint verifiers_of (keys : list string) : outcome (list VerifyKey) :=
match keys with
| [] => Ok []
| k :: ks =>
    match make_verifier k with
    | Raise e => Raise e
    | Ok v =>
        match verifiers_of ks with
        | Raise e => Raise e
        | Ok vs => Ok (v :: vs)
        end
    end
end.

(** [make_verifiers()] under [@lru_cache(1)]: the body runs on a miss and
  its list is stored; an exception is not stored. *)
Definition make_verifiers : Py state (list VerifyKey) :=
fun s =>
  match verifiers_cache s with
  | Some vs => (Ok vs, s)
  | None =>
      match verifiers_of VERIFY_KEYS with
      | Ok vs => (Ok vs, {| verifiers_cache := Some vs; events := events s |})
      | Raise e => (Raise e, s)
      end
  end.

(** [f.verify(smessage=content, signature=decoded)] *)
Definition call_verify (f : VerifyKey) (content decoded : bytes) : Py state bytes :=
emit (Verify_call f content decoded) ;;
lift (verify f content decoded).

(** The [for f in verifiers] loop of [validate] with the [raise] after it. *)
Fixpoint validate_loop (verifiers : list VerifyKey) (content decoded : bytes)
: Py state bytes :=
match verifiers with
| [] => raise BadSignatureError
| f :: rest =>
    r <- try_ (call_verify f content decoded) ;;
    match r with
    | Ok message => emit (Debug_used f) ;; ret message
    | Raise BadSignatureError =>
        emit (Debug_skipping f) ;; validate_loop rest content decoded
    | Raise e => raise e
    end
end.

(** [validate(signature, content)] *)
Definition validate (signature : string) (content : bytes) : Py state bytes :=
decoded <- lift (strip_envelope signature) ;;
verifiers <- make_verifiers ;;
emit (Debug_trying (length verifiers)) ;;
validate_loop verifiers content decoded.

(** The verification calls recorded in a log, in order. *)
Definition verify_calls (l : list event) : list (VerifyKey * bytes * bytes) :=
omap (fun e => match e with
               | Verify_call f c d => Some (f, c, d)
               | _ => None
               end) l.

(** An anchor verifies [content] against [decoded] when the primitive
  returns; it rejects when the primitive raises [BadSignatureError]. *)
Definition verifies (f : VerifyKey) (content decoded : bytes) : Prop :=
exists message, verify f content decoded = Ok message.

Definition rejects (f : VerifyKey) (content decoded : bytes) : Prop :=
verify f content decoded = Raise BadSignatureError.

(** What the loop logs for the anchors it passes over. *)
Definition skipped (content decoded : bytes) (pre : list VerifyKey) : list event :=
pre ≫= (fun k => [Verify_call k content decoded; Debug_skipping k]).

(** The state with [l] appended to its log. *)
Definition log_to (l : list event) (s : state) : state :=
{| verifiers_cache := verifiers_cache s; events := events s ++ l |}.

End with_primitives.

(** ** PKCE: [gen_code_verifier] and [gen_code_challenge] *)

(** [hashlib.sha256(data).digest()] *)
Class Hashlib := {
  sha256 : bytes -> bytes;
}.

(** [random.SystemRandom()]: [randbelow i n] is what [r._randbelow(n)]
    returns the [i]-th time [r.choice] is called; the library takes as many
    random bits from the operating system as it needs for it. *)
Class SystemRandom := {
  randbelow : nat -> nat -> nat;
}.

(** The literal [choices] of [gen_code_verifier]. *)
Definition choices : string :=
  "abcdefghijklmnopqrstuvwxyzABCDEFGHIJKLMNOPQRSTUVWXYZ0123456789-._~".

(** [r.choice(seq)], called for the [i]-th time:
    [seq[r._randbelow(len(seq))]]; [None] is the [IndexError] of an index
    that is out of range. *)
Definition choice `{SystemRandom} (i : nat) (seq : list Ascii.ascii)
  : option Ascii.ascii :=
  seq !! randbelow i (length seq).

(** The generator [r.choice(choices) for _ in range(n)], consumed by
    [join], with [i] calls of [r.choice] made before. *)
Fixpoint choose `{SystemRandom} (n : nat) (i : nat) : option (list Ascii.ascii) :=
  match n with
  | O => Some []
  | S n' =>
      match choice i (String.list_ascii_of_string choices) with
      | None => None
      | Some c =>
          match choose n' (S i) with
          | None => None
          | Some cs => Some (c :: cs)
          end
      end
  end.

(** [gen_code_verifier(length)]; [range(length)] is empty for
    [length <= 0]. *)
Definition gen_code_verifier `{SystemRandom} (length : Z) (i : nat) : option string :=
  match choose (Z.to_nat length) i with
  | Some cs => Some (String.string_of_list_ascii cs)
  | None => None
  end.

(** The URL-safe base64 alphabet and the padding byte. *)
Definition urlsafe_alphabet : bytes :=
  String.list_byte_of_string
    "ABCDEFGHIJKLMNOPQRSTUVWXYZabcdefghijklmnopqrstuvwxyz0123456789-_".

Definition pad : byte := "="%byte.

Definition sextet (n : nat) : byte := nth n urlsafe_alphabet pad.

(** [base64.urlsafe_b64encode(s)]: three bytes give four characters; a
    last group of one or two bytes is padded with [=]. *)
Fixpoint urlsafe_b64encode (s : bytes) : bytes :=
  match s with
  | [] => []
  | [a] =>
      let a := Byte.to_nat a in
      [sextet (a / 4); sextet (a mod 4 * 16); pad; pad]
  | [a; b] =>
      let a := Byte.to_nat a in
      let b := Byte.to_nat b in
      [sextet (a / 4); sextet (a mod 4 * 16 + b / 16); sextet (b mod 16 * 4); pad]
  | a :: b :: c :: rest =>
      let a := Byte.to_nat a in
      let b := Byte.to_nat b in
      let c := Byte.to_nat c in
      [sextet (a / 4); sextet (a mod 4 * 16 + b / 16);
       sextet (b mod 16 * 4 + c / 64); sextet (c mod 64)]
      ++ urlsafe_b64encode rest
  end.

(** [s.rstrip(c)] for a single byte [c]. *)
Fixpoint rstrip (s : bytes) (c : byte) : bytes :=
  match s with
  | [] => []
  | x :: s' =>
      match rstrip s' c with
      | [] => if decide (x = c) then [] else [x]
      | r => x :: r
      end
  end.

(** How many [=] close the encoding of [n] bytes. *)
Definition pads (n : nat) : nat := ((3 - n mod 3) mod 3)%nat.

(** [gen_code_challenge(code_verifier)] *)
Definition gen_code_challenge `{Hashlib} (code_verifier : string) : bytes :=
  let digest := sha256 (String.list_byte_of_string code_verifier) in
  let encoded := urlsafe_b64encode digest in
  rstrip encoded pad.

End crypto.

(* ===================================================================== *)
(** * nm.py                                                               *)
(* ===================================================================== *)

(** The profile import boundary: [import_ovpn(config, private_key,
    certificate)] writes the profile to a temporary directory, has the
    openvpn plugin of NetworkManager parse it ([nm_ovpn_import], which raises
    unless exactly one such plugin is registered) and removes the directory.
    Its result is a connection the manager does not know yet. *)
Abbreviation Settings := (list (string * string)).

Class Importer := {
  import_ovpn : string -> string -> string -> outcome Settings;
}.

Module nm.

(** ** Values of the [NM] namespace *)

(** A member of an NM enumeration: the enumeration and the integer. *)
Inductive enum_class := VpnConnectionState_t | VpnConnectionStateReason_t.

Record enum := { enum_type : enum_class; enum_value : Z }.

Module VpnConnectionState.
Definition of_raw (raw : Z) : enum :=
  {| enum_type := VpnConnectionState_t; enum_value := raw |}.
Definition UNKNOWN := of_raw 0.
Definition ACTIVATED := of_raw 5.
Definition FAILED := of_raw 6.
Definition DISCONNECTED := of_raw 7.
End VpnConnectionState.

Module VpnConnectionStateReason.
(** [NM.VpnConnectionStateReason(raw)] *)
Definition of_raw (raw : Z) : enum :=
  {| enum_type := VpnConnectionStateReason_t; enum_value := raw |}.
Definition UNKNOWN := of_raw 0.
Definition NONE := of_raw 1.
End VpnConnectionStateReason.

(** [type(a)] of an active connection. *)
Inductive gtype := NM_ActiveConnection | NM_VpnConnection.

Global Instance gtype_eq_dec : EqDecision gtype.
Proof. solve_decision. Defined.

(** An [NM.ActiveConnection] as far as the module looks into it. *)
Record ActiveConnection := {
  a_type : gtype;
  a_uuid : string;               (* a.get_uuid() *)
  a_state : enum;                (* a.get_state() *)
  a_state_reason : enum;         (* a.get_state_reason() *)
}.

(** An active connection as a D-Bus object: the three properties
    [init_dbus_system_bus] reads. *)
Record BusObject := {
  Id : string;
  Vpn : bool;
  VpnState : Z;
}.

(** ** Callbacks, requests and events *)

(** A caller-supplied callable, known by its identity only. *)
Definition Callback := nat.

(** The [Gio.AsyncResult] handed to a completion callback: the operation
    went through (for an add, [value] is the uuid the manager gave the new
    connection), or its [*_finish] call raises. *)
Inductive AsyncResult :=
| Done (value : string)
| Failed.

Inductive arg :=
| Arg_bool (b : bool)
| Arg_result (r : AsyncResult)
| Arg_enum (e : enum).

Inductive level := DEBUG | INFO | WARNING | ERROR.

(** What a run leaves behind, most recent last.  A log record keeps the
    level and the literal text of the message. *)
Inductive event :=
| Log (lvl : level) (text : string)
| Sleep (milliseconds : nat)              (* time.sleep *)
| Called (cb : Callback) (args : list arg) (* a caller's callable was run *)
| Set_uuid (uuid : string)                (* eduvpn.storage.set_uuid *)
| Property_get (name : string).           (* a D-Bus property read *)

(** An asynchronous call handed to the client and not yet finished.  A
    remote connection is named by the uuid the client resolves it under. *)
Inductive request :=
| Add_connection (connection : Settings) (user_data : option Callback)
| Commit_changes (remote_connection : string) (user_data : option Callback)
| Activate_connection (connection : string) (user_data : option Callback)
| Deactivate_connection (active : ActiveConnection) (user_data : option Callback).

(** A source added with [GLib.idle_add].  The module adds one kind only:
    [lambda: activate_connection(client, uuid)]. *)
Inductive source :=
| Retry_activate (uuid : string).

(** ** The state the module runs in *)
Record World := {
  stored_uuid : option string;              (* eduvpn.storage *)
  connections : gmap string Settings;       (* remote connections by uuid *)
  primary_connection : option ActiveConnection;
  active_connections : list ActiveConnection;
  bus_active_connections : list BusObject;  (* ActiveConnections on D-Bus *)
  signal_receivers : list Callback;         (* VpnStateChanged receivers *)
  requests : list request;
  idle : list source;
  journal : list event;
}.

Definition set_stored_uuid (x : option string) (w : World) : World :=
  {| stored_uuid := x; connections := connections w;
     primary_connection := primary_connection w;
     active_connections := active_connections w;
     bus_active_connections := bus_active_connections w;
     signal_receivers := signal_receivers w;
     requests := requests w; idle := idle w; journal := journal w |}.

Definition set_connections (x : gmap string Settings) (w : World) : World :=
  {| stored_uuid := stored_uuid w; connections := x;
     primary_connection := primary_connection w;
     active_connections := active_connections w;
     bus_active_connections := bus_active_connections w;
     signal_receivers := signal_receivers w;
     requests := requests w; idle := idle w; journal := journal w |}.

Definition set_signal_receivers (x : list Callback) (w : World) : World :=
  {| stored_uuid := stored_uuid w; connections := connections w;
     primary_connection := primary_connection w;
     active_connections := active_connections w;
     bus_active_connections := bus_active_connections w;
     signal_receivers := x;
     requests := requests w; idle := idle w; journal := journal w |}.

Definition set_requests (x : list request) (w : World) : World :=
  {| stored_uuid := stored_uuid w; connections := connections w;
     primary_connection := primary_connection w;
     active_connections := active_connections w;
     bus_active_connections := bus_active_connections w;
     signal_receivers := signal_receivers w;
     requests := x; idle := idle w; journal := journal w |}.

Definition set_idle (x : list source) (w : World) : World :=
  {| stored_uuid := stored_uuid w; connections := connections w;
     primary_connection := primary_connection w;
     active_connections := active_connections w;
     bus_active_connections := bus_active_connections w;
     signal_receivers := signal_receivers w;
     requests := requests w; idle := x; journal := journal w |}.

Definition set_journal (x : list event) (w : World) : World :=
  {| stored_uuid := stored_uuid w; connections := connections w;
     primary_connection := primary_connection w;
     active_connections := active_connections w;
     bus_active_connections := bus_active_connections w;
     signal_receivers := signal_receivers w;
     requests := requests w; idle := idle w; journal := x |}.

(** The manager's own state moves on its own account (connections appear,
    the primary connection changes); the client sees the new values. *)
Definition set_manager (c : gmap string Settings) (p : option ActiveConnection)
    (a : list ActiveConnection) (b : list BusObject) (w : World) : World :=
  {| stored_uuid := stored_uuid w; connections := c;
     primary_connection := p; active_connections := a;
     bus_active_connections := b;
     signal_receivers := signal_receivers w;
     requests := requests w; idle := idle w; journal := journal w |}.

(** ** Primitive effects *)

Definition emit (e : event) : Py World unit :=
  modify (fun w => set_journal (journal w ++ [e]) w).

Definition log (lvl : level) (text : string) : Py World unit :=
  emit (Log lvl text).

(** Running a caller's callable: the model records that it ran, and with
    what. *)
Definition call (cb : Callback) (args : list arg) : Py World unit :=
  emit (Called cb args).

(** [time.sleep(seconds)], the duration kept in milliseconds. *)
Definition time_sleep (milliseconds : nat) : Py World unit :=
  emit (Sleep milliseconds).

(** [GLib.idle_add(f)] *)
Definition idle_add (f : source) : Py World unit :=
  modify (fun w => set_idle (idle w ++ [f]) w).

(** Handing an asynchronous call to the client. *)
Definition submit (r : request) : Py World unit :=
  modify (fun w => set_requests (requests w ++ [r]) w).

(** Modelled from the spec: [eduvpn.storage.get_uuid], the read of the
    persisted identifier store ([get() -> id|None]). *)
Definition get_uuid : Py World (option string) :=
  fun w => (Ok (stored_uuid w), w).

(** Modelled from the spec: [eduvpn.storage.set_uuid], the write of the
    persisted identifier store ([set(id)]); the stored value is replaced. *)
Definition set_uuid (uuid : string) : Py World unit :=
  emit (Set_uuid uuid) ;;
  modify (set_stored_uuid (Some uuid)).

(** [client.get_connection_by_uuid(uuid)]: the remote connection, or
    [None]. *)
Definition get_connection_by_uuid (uuid : string) : Py World (option string) :=
  fun w => (Ok (match connections w !! uuid with
                | Some _ => Some uuid
                | None => None
                end), w).

(** [client.get_primary_connection()] *)
Definition get_primary_connection : Py World (option ActiveConnection) :=
  fun w => (Ok (primary_connection w), w).

(** [old_con.replace_settings_from_connection(new_con)] *)
Definition replace_settings_from_connection (old_con : string) (new_con : Settings)
  : Py World unit :=
  modify (fun w => set_connections (<[old_con := new_con]> (connections w)) w).

(** The [*_finish] calls: they return on a finished operation and raise
    [GLib.Error] on a failed one. *)
Definition finish (res : AsyncResult) : Py World string :=
  match res with
  | Done v => ret v
  | Failed => raise GLib_Error
  end.

(** ** The functions of the module *)
Section with_importer.
Context {I : Importer}.

Definition add_connection_callback (result : AsyncResult)
    (callback : option Callback) : Py World unit :=
  new_con <- finish result ;;            (* client.add_connection_finish *)
  set_uuid new_con ;;                    (* uuid=new_con.get_uuid() *)
  log INFO "Connection added for uuid: {get_uuid()}" ;;
  match callback with
  | Some cb => call cb [Arg_bool true]   (* callback(new_con is not None) *)
  | None => ret tt
  end.

Definition add_connection (connection : Settings) (callback : option Callback)
  : Py World unit :=
  log INFO "Adding new connection" ;;
  submit (Add_connection connection callback).

Definition update_connection_callback (remote_connection : string)
    (result : AsyncResult) (callback : option Callback) : Py World unit :=
  res <- finish result ;;                (* commit_changes_finish *)
  log DEBUG "Connection updated for uuid: {get_uuid()}, result: {res}, remote_con: {remote_connection}" ;;
  match callback with
  | Some cb => call cb [Arg_result result]
  | None => ret tt
  end.

Definition update_connection (old_con : string) (new_con : Settings)
    (callback : option Callback) : Py World unit :=
  log INFO "Updating existing connection with new configuration" ;;
  replace_settings_from_connection old_con new_con ;;
  submit (Commit_changes old_con callback).

Definition save_connection (config private_key certificate : string)
    (callback : option Callback) : Py World unit :=
  log INFO "writing configuration to Network Manager" ;;
  new_con <- lift (import_ovpn config private_key certificate) ;;
  uuid <- get_uuid ;;
  match uuid with
  | Some u =>
      if truthy_str uuid then
        old_con <- get_connection_by_uuid u ;;
        match old_con with
        | Some old => update_connection old new_con callback  (* return *)
        | None => add_connection new_con callback
        end
      else add_connection new_con callback
  | None => add_connection new_con callback
  end.

(** The nested [activate_connection_callback]: [try] / [except Exception]
    / [else] / [finally]. *)
Definition activate_connection_callback (res : AsyncResult)
    (callback : option Callback) : Py World unit :=
  r <- try_ (finish res) ;;
  (match r with
   | Raise _ => log ERROR "{e}"
   | Ok _ => log INFO "activate_connection_async result: {result}"
   end) ;;
  match callback with
  | Some cb => call cb []
  | None => ret tt
  end.

Definition activate_connection (uuid : string) (callback : option Callback)
  : Py World unit :=
  con <- get_connection_by_uuid uuid ;;
  log INFO "activate_connection uuid: {uuid} connection: {con}" ;;
  match con with
  | None =>
      time_sleep 100 ;;
      idle_add (Retry_activate uuid)     (* the lambda passes no callback *)
  | Some c => submit (Activate_connection c callback)
  end.

(** The nested [on_deactivate_connection]. *)
Definition on_deactivate_connection (res : AsyncResult)
    (callback : option Callback) : Py World unit :=
  r <- try_ (finish res) ;;
  (match r with
   | Raise _ => log ERROR "{e}"
   | Ok _ => log INFO "deactivate_connection_async result: {result}"
   end) ;;
  match callback with
  | Some cb => call cb []
  | None => ret tt
  end.

Definition deactivate_connection (uuid : string) (callback : option Callback)
  : Py World unit :=
  con <- get_primary_connection ;;
  log DEBUG "deactivate_connection uuid: {uuid} connection: {con}" ;;
  match con with
  | Some c =>
      if String.eqb uuid (a_uuid c)
      then submit (Deactivate_connection c callback)
      else ret tt
  | None => log INFO "No active connection to deactivate"
  end.


(** The [for a in active] loop of [init_dbus_system_bus]; the result says
    whether the loop left the function through its [return]. *)
Fixpoint scan_active (active : list BusObject) (callback : Callback)
  : Py World bool :=
  match active with
  | [] => ret false
  | a :: rest =>
      emit (Property_get "Id") ;;
      emit (Property_get "Vpn") ;;
      if Vpn a then
        emit (Property_get "VpnState") ;;
        let vpn_state := VpnConnectionStateReason.of_raw (VpnState a) in
        log DEBUG "Id: {vpn_id} VpnState: {vpn_state}" ;;
        call callback [Arg_enum vpn_state; Arg_enum VpnConnectionStateReason.NONE] ;;
        ret true
      else scan_active rest callback
  end.

Definition init_dbus_system_bus (callback : Callback) : Py World unit :=
  modify (fun w => set_signal_receivers (signal_receivers w ++ [callback]) w) ;;
  emit (Property_get "ActiveConnections") ;;
  w <- get ;;
  returned <- scan_active (bus_active_connections w) callback ;;
  if returned : bool then ret tt
  else call callback [Arg_enum VpnConnectionState.DISCONNECTED;
                      Arg_enum VpnConnectionStateReason.NONE].

(** The list [vpns] of [get_vpn_status]. *)
Definition vpns_of (active : list ActiveConnection) : list ActiveConnection :=
  filter (fun a => a_type a = NM_VpnConnection) active.

Definition get_vpn_status : Py World (enum * enum) :=
  w <- get ;;
  let vpns := vpns_of (active_connections w) in
  if Nat.ltb 1 (length vpns) then
    log WARNING "more than one VPN connection active" ;;
    ret (VpnConnectionState.UNKNOWN, VpnConnectionStateReason.UNKNOWN)
  else if Nat.eqb (length vpns) 0 then
    ret (VpnConnectionState.UNKNOWN, VpnConnectionStateReason.UNKNOWN)
  else
    match vpns !! 0%nat with
    | Some v => ret (a_state v, a_state_reason v)
    | None => raise Exception_
    end.

(** ** The main loop *)

(** The callback each asynchronous call was submitted with. *)
Definition on_finish (r : request) (res : AsyncResult) : Py World unit :=
  match r with
  | Add_connection _ user_data => add_connection_callback res user_data
  | Commit_changes rc user_data => update_connection_callback rc res user_data
  | Activate_connection _ user_data => activate_connection_callback res user_data
  | Deactivate_connection _ user_data => on_deactivate_connection res user_data
  end.

(** A finished add: the client now resolves the new connection. *)
Definition registered (r : request) (res : AsyncResult) (w : World) : World :=
  match r, res with
  | Add_connection c _, Done u => set_connections (<[u := c]> (connections w)) w
  | _, _ => w
  end.

(** The loop delivers the result of the [i]-th outstanding call: its
    callback runs; an exception leaving the callback is dropped by the
    loop. *)
Definition complete (i : nat) (res : AsyncResult) (w : World) : option World :=
  match requests w !! i with
  | None => None
  | Some r =>
      Some (snd (on_finish r res
                   (registered r res (set_requests (delete i (requests w)) w))))
  end.

(** The loop runs the oldest idle source; the lambda returns [None], so
    the source is removed. *)
Definition dispatch_idle (w : World) : option World :=
  match idle w with
  | [] => None
  | Retry_activate uuid :: rest =>
      Some (snd (activate_connection uuid None (set_idle rest w)))
  end.

Definition run_idle (w : World) : World := default w (dispatch_idle w).

(** One turn of the world: an idle source runs, an asynchronous call
    finishes, or the manager's own state changes. *)
Inductive step : World -> World -> Prop :=
| step_idle w w' : dispatch_idle w = Some w' -> step w w'
| step_complete i res w w' : complete i res w = Some w' -> step w w'
| step_manager c p a b w : step w (set_manager c p a b w).

(** ** Observations *)

Definition is_call_of (cb : Callback) (e : event) : bool :=
  match e with
  | Called cb' _ => Nat.eqb cb cb'
  | _ => false
  end.

(** How often [cb] has been run. *)
Definition calls (cb : Callback) (w : World) : nat :=
  length (List.filter (is_call_of cb) (journal w)).

Definition user_data_of (r : request) : option Callback :=
  match r with
  | Add_connection _ u | Commit_changes _ u
  | Activate_connection _ u | Deactivate_connection _ u => u
  end.

(** [cb] is held by an outstanding call. *)
Definition held (cb : Callback) (w : World) : Prop :=
  Some cb ∈ user_data_of <$> requests w.

Definition is_sleep (e : event) : bool :=
  match e with Sleep _ => true | _ => false end.

Definition is_store_write (e : event) : bool :=
  match e with Set_uuid _ => true | _ => false end.

(** How often the module has slept. *)
Definition sleeps (w : World) : nat :=
  length (List.filter is_sleep (journal w)).

(** The writes to the identifier store, in order. *)
Definition store_writes (w : World) : list event :=
  List.filter is_store_write (journal w).

Definition is_log (e : event) : bool :=
  match e with Log _ _ => true | _ => false end.

Definition is_property_get (name : string) (e : event) : bool :=
  match e with Property_get n => String.eqb n name | _ => false end.

Definition is_called (e : event) : bool :=
  match e with Called _ _ => true | _ => false end.

(** What [scan_active] reads of the objects it passes over, and what it
    reads, logs and reports for the one it stops at. *)
Definition passed_over (pre : list BusObject) : list event :=
  pre ≫= (fun _ => [Property_get "Id"; Property_get "Vpn"]).

Definition reported (callback : Callback) (a : BusObject) : list event :=
  [Property_get "Id"; Property_get "Vpn"; Property_get "VpnState";
   Log DEBUG "Id: {vpn_id} VpnState: {vpn_state}";
   Called callback [Arg_enum (VpnConnectionStateReason.of_raw (VpnState a));
                    Arg_enum VpnConnectionStateReason.NONE]].

(** The two operations of the activator, for statements about both. *)
Inductive operation := Activate (uuid : string) | Deactivate (uuid : string).

Definition run_operation (op : operation) (callback : option Callback)
  : Py World unit :=
  match op with
  | Activate uuid => activate_connection uuid callback
  | Deactivate uuid => deactivate_connection uuid callback
  end.

(** The paths on which an operation submits nothing: [activate] when the
    uuid does not resolve, [deactivate] when there is no primary
    connection or it has another uuid. *)
Definition submits_nothing (op : operation) (w : World) : Prop :=
  match op with
  | Activate uuid => connections w !! uuid = None
  | Deactivate uuid =>
      match primary_connection w with
      | None => True
      | Some c => a_uuid c <> uuid
      end
  end.

End with_importer.

(** ** Further observations *)

(** How many outstanding calls hold [cb]. *)
Definition holders (cb : Callback) (w : World) : nat :=
  length (List.filter (fun r => bool_decide (user_data_of r = Some cb)) (requests w)).

(** The calls submitted by [activate_connection] and
    [deactivate_connection]. *)
Definition is_activator (r : request) : bool :=
  match r with
  | Activate_connection _ _ | Deactivate_connection _ _ => true
  | _ => false
  end.

(** The paths on which an operation hands a call to the manager:
    [activate] of a uuid that resolves, [deactivate] of the uuid of the
    primary connection. *)
Definition submits (op : operation) (w : World) : Prop :=
  match op with
  | Activate uuid => is_Some (connections w !! uuid)
  | Deactivate uuid =>
      exists c, primary_connection w = Some c /\ a_uuid c = uuid
  end.

End nm.

(* ===================================================================== *)
(** * nm.py: the profile import                                          *)
(* ===================================================================== *)

(** [nm_ovpn_import] and [import_ovpn] over an explicit disk.  A temporary
    directory is known by its number; a file by its directory and name. *)
Module nm_import.

(** An entry of [NM.VpnPluginInfo.list_load()]: its name, and what
    [load_editor_plugin().import_(path)] gives for the content found at
    [path] ([None]: there is no such file). *)
Record VpnPluginInfo := {
  get_name : string;
  import_ : option string -> outcome Settings;
}.

Class Plugins := {
  list_load : list VpnPluginInfo;
  (** [conn.normalize()] *)
  normalize : Settings -> outcome Settings;
  (** Modelled from the spec: [eduvpn.storage.write_config], which is not
      under src/; this is the text it puts into the profile file for a
      profile document, a private key and a certificate. *)
  config_text : string -> string -> string -> string;
}.

Record Disk := {
  next_tmp : nat;                        (* the directory mkdtemp makes next *)
  dirs : list nat;                       (* temporary directories in existence *)
  files : gmap (nat * string) string;    (* their files *)
}.

Section with_plugins.
Context {PL : Plugins}.

(** [mkdtemp()] *)
Definition mkdtemp : Py Disk nat :=
  fun d => (Ok (next_tmp d),
            {| next_tmp := S (next_tmp d); dirs := next_tmp d :: dirs d;
               files := files d |}).

(** Modelled from the spec: [eduvpn.storage.write_config(config,
    private_key, certificate, target)], which is not under src/: the profile
    is written to the file [target]. *)
Definition write_config (config private_key certificate : string)
    (target : nat * string) : Py Disk unit :=
  modify (fun d => {| next_tmp := next_tmp d; dirs := dirs d;
                      files := <[target := config_text config private_key certificate]>
                                 (files d) |}).

(** [rmtree(directory)] *)
Definition rmtree (directory : nat) : Py Disk unit :=
  modify (fun d => {| next_tmp := next_tmp d;
                      dirs := List.filter (fun x => negb (Nat.eqb x directory)) (dirs d);
                      files := filter (fun kv => fst (fst kv) <> directory) (files d) |}).

(** The list [vpn_infos] of [nm_ovpn_import]. *)
Definition vpn_infos : list VpnPluginInfo :=
  List.filter (fun i => String.eqb (get_name i) "openvpn") list_load.

Definition nm_ovpn_import (target : nat * string) : Py Disk Settings :=
  if negb (Nat.eqb (length vpn_infos) 1) then raise Exception_
  else
    match vpn_infos !! 0%nat with
    | None => raise Exception_
    | Some info =>
        d <- get ;;
        conn <- lift (import_ info (files d !! target)) ;;
        lift (normalize conn)
    end.

Definition import_ovpn (config private_key certificate : string)
  : Py Disk Settings :=
  target_parent <- mkdtemp ;;
  let target := (target_parent, "eduVPN.ovpn") in
  write_config config private_key certificate target ;;
  connection <- nm_ovpn_import target ;;
  rmtree target_parent ;;
  ret connection.

(** The disk a failed import leaves: the temporary directory is still
    there, and in it the profile file. *)
Definition left_behind (config private_key certificate : string) (d : Disk) : Disk :=
  {| next_tmp := S (next_tmp d);
     dirs := next_tmp d :: dirs d;
     files := <[(next_tmp d, "eduVPN.ovpn") := config_text config private_key certificate]>
                (files d) |}.



End with_plugins.
End nm_import.

(* ===================================================================== *)
(** * Sample instances                                                    *)
(* ===================================================================== *)

(** Small concrete primitives and worlds, to run the functions on.  The
    decoder is a table of base64 facts; the signature scheme is a toy one in
    which the signature of any message under the 32-byte key [k] is
    [k ++ k]. *)
Module sample.

Definition key_B : bytes := replicate 31 x00 ++ [x01].
Definition key_C : bytes := replicate 31 x00 ++ [x02].

Definition b64_key_B : string :=
  "AAAAAAAAAAAAAAAAAAAAAAAAAAAAAAAAAAAAAAAAAAAAAAAAAAAAAAAB".
Definition b64_key_C : string :=
  "AAAAAAAAAAAAAAAAAAAAAAAAAAAAAAAAAAAAAAAAAAAAAAAAAAAAAAAC".
Definition b64_sig_B : string :=
  "AAAAAAAAAAAAAAAAAAAAAAAAAAAAAAAAAAAAAAAAAAAAAAAAAAAAAAABAAAAAAAAAAAAAAAAAAAAAAAAAAAAAAAAAAAAAAAAAAE=".
Definition b64_sig_C : string :=
  "AAAAAAAAAAAAAAAAAAAAAAAAAAAAAAAAAAAAAAAAAAAAAAAAAAAAAAACAAAAAAAAAAAAAAAAAAAAAAAAAAAAAAAAAAAAAAAAAAI=".

Definition table : list (string * bytes) :=
  [ ("", []);
    ("AAAA", [x00; x00; x00]);
    (b64_key_B, replicate 10 x00 ++ key_B);
    (b64_key_C, replicate 10 x00 ++ key_C);
    (b64_sig_B, replicate 10 x00 ++ key_B ++ key_B);
    (b64_sig_C, replicate 10 x00 ++ key_C ++ key_C) ].

Fixpoint lookup_table (t : list (string * bytes)) (x : string) : outcome bytes :=
  match t with
  | [] => Raise binascii_Error
  | (k, v) :: t' => if String.eqb k x then Ok v else lookup_table t' x
  end.

Definition toy_init (k : bytes) : outcome bytes :=
  if Nat.eqb (length k) 32 then Ok k else Raise ValueError.

Definition toy_verify (k smessage signature : bytes) : outcome bytes :=
  if decide (signature = k ++ k) then Ok smessage else Raise BadSignatureError.

Definition toy (keys : list string) : Crypto :=
  {| VerifyKey := bytes;
     VerifyKey_init := toy_init;
     verify := toy_verify;
     b64decode := lookup_table table;
     VERIFY_KEYS := keys |}.

(** Two anchors, B after C. *)
Definition two_anchors : Crypto := toy [b64_key_C; b64_key_B].
(** No anchor at all. *)
Definition no_anchor : Crypto := toy [].

Definition fresh (P : Crypto) : @crypto.state P :=
  {| crypto.verifiers_cache := None; crypto.events := [] |}.

(** The states after the first call of [make_verifiers]. *)
Definition anchors : list (@VerifyKey two_anchors) := [key_C; key_B].

Definition warm : @crypto.state two_anchors :=
  {| crypto.verifiers_cache := Some anchors; crypto.events := [] |}.

Definition warm_empty : @crypto.state no_anchor :=
  {| crypto.verifiers_cache := Some []; crypto.events := [] |}.

Definition content : bytes := [x68; x69].

(** The importer gives a one-setting connection whatever the profile. *)
Definition importer : Importer :=
  {| import_ovpn := fun config _ _ => Ok [("remote", config)] |}.

Definition world0 : nm.World :=
  {| nm.stored_uuid := None; nm.connections := ∅;
     nm.primary_connection := None; nm.active_connections := [];
     nm.bus_active_connections := []; nm.signal_receivers := [];
     nm.requests := []; nm.idle := []; nm.journal := [] |}.

Definition world (stored : option string) (conns : gmap string Settings)
    (primary : option nm.ActiveConnection) (active : list nm.ActiveConnection)
    (bus : list nm.BusObject) : nm.World :=
  {| nm.stored_uuid := stored; nm.connections := conns;
     nm.primary_connection := primary; nm.active_connections := active;
     nm.bus_active_connections := bus; nm.signal_receivers := [];
     nm.requests := []; nm.idle := []; nm.journal := [] |}.

Definition vpn (uuid : string) (st : Z) : nm.ActiveConnection :=
  {| nm.a_type := nm.NM_VpnConnection; nm.a_uuid := uuid;
     nm.a_state := nm.VpnConnectionState.of_raw st;
     nm.a_state_reason := nm.VpnConnectionStateReason.NONE |}.

Definition wired (uuid : string) : nm.ActiveConnection :=
  {| nm.a_type := nm.NM_ActiveConnection; nm.a_uuid := uuid;
     nm.a_state := nm.VpnConnectionState.of_raw 2;
     nm.a_state_reason := nm.VpnConnectionStateReason.NONE |}.

(** A stored identifier the manager no longer resolves. *)
Definition world_stale : nm.World := world (Some "X") ∅ None [] [].

(** A stored identifier the manager resolves. *)
Definition world_known : nm.World :=
  world (Some "X") {[ "X" := [("remote", "old.example.org")] ]} None [] [].

(** The primary connection is another one than the managed one. *)
Definition world_other_primary : nm.World :=
  world (Some "X") ∅ (Some (wired "Z")) [wired "Z"] [].

(** Two VPN connections active at once, next to a wired one. *)
Definition world_two_vpns : nm.World :=
  world None ∅ (Some (wired "Z")) [wired "Z"; vpn "A" 5; vpn "B" 3]
    [ {| nm.Id := "Z"; nm.Vpn := false; nm.VpnState := 0 |};
      {| nm.Id := "A"; nm.Vpn := true; nm.VpnState := 5 |};
      {| nm.Id := "B"; nm.Vpn := true; nm.VpnState := 3 |} ].

(** The run of concrete scenario 3: [activate("Y", callback=1)] while "Y"
    does not resolve, then the manager knows "Y", the re-entry runs, and
    the activation it submits finishes. *)
Definition now_known : gmap string Settings :=
  {[ "Y" := [("remote", "vpn.example.org")] ]}.

Definition after_retry : nm.World :=
  let w1 := snd (nm.activate_connection "Y" (Some 1%nat) world0) in
  let w2 := nm.set_manager now_known None [] [] w1 in
  let w3 := nm.run_idle w2 in
  default w3 (nm.complete 0 (nm.Done "") w3).

End sample.

(** Further sample values: a digest function that pads or cuts its input to
    32 bytes, a source of random indices that counts, and two plugin lists. *)
Module more_samples.

Definition toy_hash : crypto.Hashlib :=
  {| crypto.sha256 := fun m => take 32 (m ++ replicate 32 x00) |}.

Definition counting : crypto.SystemRandom :=
  {| crypto.randbelow := fun i n => ((7 * i + 3) mod n)%nat |}.


Definition other_plugin : nm_import.VpnPluginInfo :=
  {| nm_import.get_name := "vpnc";
     nm_import.import_ := fun _ => Raise GLib_Error |}.

Definition render (config private_key certificate : string) : string :=
  String.append config (String.append private_key certificate).


Definition no_openvpn : nm_import.Plugins :=
  {| nm_import.list_load := [other_plugin];
     nm_import.normalize := Ok;
     nm_import.config_text := render |}.


Definition disk0 : nm_import.Disk :=
  {| nm_import.next_tmp := 0; nm_import.dirs := []; nm_import.files := ∅ |}.

(** Anchors whose second key decodes to a blob too short for a key. *)
Definition bad_second_key : Crypto := sample.toy [sample.b64_key_C; "AAAA"].

(** The two sample anchors, cached in the other order. *)
Definition warm_swapped : @crypto.state sample.two_anchors :=
  {| crypto.verifiers_cache := Some ([sample.key_B; sample.key_C] : list (@VerifyKey sample.two_anchors));
     crypto.events := [] |}.

(** A primitive that refuses a signature that is not 64 bytes long with
    [ValueError], before it looks at the key. *)
Definition strict_verify (k smessage signature : bytes) : outcome bytes :=
  if negb (Nat.eqb (length signature) 64) then Raise ValueError
  else sample.toy_verify k smessage signature.

Definition strict : Crypto :=
  {| VerifyKey := bytes;
     VerifyKey_init := sample.toy_init;
     verify := strict_verify;
     b64decode := sample.lookup_table sample.table;
     VERIFY_KEYS := [sample.b64_key_C; sample.b64_key_B] |}.

Definition strict_anchors : list (@VerifyKey strict) := [sample.key_C; sample.key_B].

Definition strict_warm : @crypto.state strict :=
  {| crypto.verifiers_cache := Some strict_anchors; crypto.events := [] |}.

(** A primary VPN connection "A", among other active connections. *)
Definition world_vpn_primary : nm.World :=
  sample.world (Some "A") ∅ (Some (sample.vpn "A" 5))
    [sample.wired "Z"; sample.vpn "A" 5; sample.wired "W"] [].

(** The uuid "Y" resolves. *)
Definition world_resolved : nm.World :=
  sample.world (Some "Y") sample.now_known None [] [].

(** [activate("Y", callback=1)] in that world, and the activation failing. *)
Definition activation_failed : nm.World :=
  let w1 := snd (nm.activate_connection "Y" (Some 1%nat) world_resolved) in
  default w1 (nm.complete 0 nm.Failed w1).

(** [deactivate("A", callback=2)] of the primary connection "A", and the
    deactivation going through. *)
Definition deactivated : nm.World :=
  let w1 := snd (nm.deactivate_connection "A" (Some 2%nat) world_vpn_primary) in
  default w1 (nm.complete 0 (nm.Done "") w1).

End more_samples.

(* ===================================================================== *)
(** * Properties of crypto.py                                             *)
(* ===================================================================== *)

Module crypto_facts.
Import crypto.
Section with_primitives.
Context {P : Crypto}.
Implicit Types (f : VerifyKey) (vs pre post : list VerifyKey)
             (content decoded : bytes) (s : state).

Lemma log_to_nil s : log_to [] s = s.
Proof. destruct s; unfold log_to; simpl. by rewrite app_nil_r. Qed.

Lemma log_to_app l1 l2 s : log_to l2 (log_to l1 s) = log_to (l1 ++ l2) s.
Proof. unfold log_to; simpl. by rewrite app_assoc. Qed.

Lemma validate_loop_nil content decoded s :
validate_loop [] content decoded s = (Raise BadSignatureError, s).
Proof. reflexivity. Qed.

Lemma validate_loop_reject f vs content decoded s :
rejects f content decoded ->
validate_loop (f :: vs) content decoded s =
validate_loop vs content decoded
  (log_to [Verify_call f content decoded; Debug_skipping f] s).
Proof.
unfold rejects. intros Hrej.
cbn [validate_loop]. unfold bind, try_, call_verify, bind, emit, modify, lift.
rewrite Hrej. cbn. unfold log_to. cbn. by rewrite <- app_assoc.
Qed.

Lemma validate_loop_accept f vs content decoded message s :
verify f content decoded = Ok message ->
validate_loop (f :: vs) content decoded s =
(Ok message, log_to [Verify_call f content decoded; Debug_used f] s).
Proof.
intros Hok.
cbn [validate_loop]. unfold bind, try_, call_verify, bind, emit, modify, lift, ret.
rewrite Hok. cbn. unfold log_to. cbn. by rewrite <- app_assoc.
Qed.

Lemma validate_loop_other f vs content decoded e s :
verify f content decoded = Raise e -> e <> BadSignatureError ->
validate_loop (f :: vs) content decoded s =
(Raise e, log_to [Verify_call f content decoded] s).
Proof.
intros Hr Hne.
cbn [validate_loop]. unfold bind, try_, call_verify, bind, emit, modify, lift, raise.
rewrite Hr. cbn. destruct e; try done.
Qed.

(** The loop passes over rejecting anchors and stops at the first that
  verifies. *)
Lemma validate_loop_first pre f post content decoded message s :
Forall (fun k => rejects k content decoded) pre ->
verify f content decoded = Ok message ->
validate_loop (pre ++ f :: post) content decoded s =
(Ok message,
 log_to (skipped content decoded pre
         ++ [Verify_call f content decoded; Debug_used f]) s).
Proof.
intros Hpre Hok. revert s.
induction Hpre as [|k pre Hk _ IH]; intros s.
- by apply validate_loop_accept.
- cbn [app]. rewrite validate_loop_reject by done.
  rewrite IH, log_to_app. reflexivity.
Qed.

Lemma validate_loop_none vs content decoded s :
Forall (fun k => rejects k content decoded) vs ->
validate_loop vs content decoded s =
(Raise BadSignatureError, log_to (skipped content decoded vs) s).
Proof.
intros Hall. revert s.
induction Hall as [|k vs Hk _ IH]; intros s.
- cbn. by rewrite log_to_nil.
- rewrite validate_loop_reject by done.
  rewrite IH, log_to_app. reflexivity.
Qed.

(** Among anchors that either verify or reject, one that verifies has a
  first one. *)
Lemma first_verifying vs content decoded :
(exists f, f ∈ vs /\ verifies f content decoded) ->
(forall f e, f ∈ vs -> verify f content decoded = Raise e -> e = BadSignatureError) ->
exists pre f post message,
  vs = pre ++ f :: post /\
  Forall (fun k => rejects k content decoded) pre /\
  verify f content decoded = Ok message.
Proof.
induction vs as [|k vs IH]; intros (f & Hin & Hver) Hcontract.
- by apply elem_of_nil in Hin.
- destruct (verify k content decoded) as [m|e] eqn:Hk.
  + exists [], k, vs, m. by repeat split.
  + assert (e = BadSignatureError) as ->
      by (eapply Hcontract; [left | exact Hk]).
    apply elem_of_cons in Hin as [->|Hin].
    { destruct Hver as [m Hm]. congruence. }
    destruct IH as (pre & f' & post & m & -> & Hpre & Hm).
    * by exists f.
    * intros g e Hg. apply Hcontract. by right.
    * exists (k :: pre), f', post, m. repeat split; [|done].
      by constructor.
Qed.

(** The loop only ever appends to the log. *)
Lemma validate_loop_extends vs content decoded s :
  exists l, events (snd (validate_loop vs content decoded s)) = events s ++ l.
Proof.
  revert s. induction vs as [|f vs IH]; intros s.
  - exists []. cbn. by rewrite app_nil_r.
  - destruct (verify f content decoded) as [m|e] eqn:Hf.
    + rewrite (validate_loop_accept _ _ _ _ m) by done. by eexists.
    + destruct (decide (e = BadSignatureError)) as [->|Hne].
      * rewrite validate_loop_reject by done.
        destruct (IH (log_to [Verify_call f content decoded; Debug_skipping f] s))
          as [l ->].
        cbn. rewrite <- app_assoc. by eexists.
      * rewrite (validate_loop_other _ _ _ _ e) by done. by eexists.
Qed.

(** With an anchor to start from, the first thing the loop does is ask it. *)
Lemma validate_loop_asks_first f rest content decoded s :
  exists tail,
    verify_calls (events (snd (validate_loop (f :: rest) content decoded s))) =
    verify_calls (events s) ++ (f, content, decoded) :: tail.
Proof.
  assert (exists l, events (snd (validate_loop (f :: rest) content decoded s)) =
                    events s ++ Verify_call f content decoded :: l) as [l ->].
  { destruct (verify f content decoded) as [m|e] eqn:Hf.
    - rewrite (validate_loop_accept _ _ _ _ m) by done. by eexists.
    - destruct (decide (e = BadSignatureError)) as [->|Hne].
      + rewrite validate_loop_reject by done.
        destruct (validate_loop_extends rest content decoded
                    (log_to [Verify_call f content decoded; Debug_skipping f] s))
          as [l ->].
        cbn. rewrite <- app_assoc. by eexists.
      + rewrite (validate_loop_other _ _ _ _ e) by done. by eexists. }
  unfold verify_calls. rewrite omap_app. cbn. by eexists.
Qed.

(** Once built, the anchor list is served from the cache. *)
Lemma make_verifiers_cached s s1 vs :
make_verifiers s = (Ok vs, s1) ->
make_verifiers s1 = (Ok vs, s1).
Proof.
unfold make_verifiers. destruct (verifiers_cache s) as [vs0|] eqn:Hc.
- intros [= <- <-]. by rewrite Hc.
- destruct (verifiers_of VERIFY_KEYS); intros [= <- <-]; done.
Qed.

(** An exception other than [BadSignatureError] ends the loop where it is
    raised. *)
Lemma validate_loop_stops pre f post content decoded e s :
  Forall (fun k => rejects k content decoded) pre ->
  verify f content decoded = Raise e -> e <> BadSignatureError ->
  validate_loop (pre ++ f :: post) content decoded s =
    (Raise e, log_to (skipped content decoded pre ++ [Verify_call f content decoded]) s).
Proof.
  intros Hpre Hf Hne. revert s.
  induction Hpre as [|k pre Hk _ IH]; intros s.
  - by apply validate_loop_other.
  - cbn [app]. rewrite validate_loop_reject by done.
    rewrite IH, log_to_app. reflexivity.
Qed.

(** Anchors none of which verifies all reject, or there is a first one
    that raises something else. *)
Lemma none_verifies_cases vs content decoded :
  (forall f, f ∈ vs -> ~ verifies f content decoded) ->
  Forall (fun k => rejects k content decoded) vs \/
  exists pre f post e,
    vs = pre ++ f :: post /\
    Forall (fun k => rejects k content decoded) pre /\
    verify f content decoded = Raise e /\ e <> BadSignatureError.
Proof.
  induction vs as [|k vs IH]; intros Hnone.
  - left. constructor.
  - destruct (verify k content decoded) as [m|e] eqn:Hk.
    { exfalso. apply (Hnone k); [by left|by exists m]. }
    destruct (decide (e = BadSignatureError)) as [->|Hne].
    + destruct IH as [Hall|(pre & f & post & e & -> & Hpre & Hf & Hne)].
      * intros f Hf. apply Hnone. by right.
      * left. by constructor.
      * right. exists (k :: pre), f, post, e. repeat split; try done.
        by constructor.
    + right. exists [], k, vs, e. repeat split; try done.
Qed.

Lemma validate_unfold signature content s d vs s1 :
b64decode signature = Ok d ->
make_verifiers s = (Ok vs, s1) ->
validate signature content s =
validate_loop vs content (drop 10 d) (log_to [Debug_trying (length vs)] s1).
Proof.
intros Hd Hvs. unfold validate, bind at 1, lift, strip_envelope.
rewrite Hd. unfold bind at 1. rewrite Hvs.
reflexivity.
Qed.

End with_primitives.
End crypto_facts.

Module crypto_claims.
Import crypto crypto_facts.

(** C1. Whenever some trust anchor of the cached, ordered anchor set verifies
    [content] against the raw signature (the base64-decoded envelope without
    its first 10 bytes), [validate(signature, content)] returns, and what it
    returns is [content] itself; the anchor used is the first one in
    iteration order that verifies, every anchor before it having been tried
    and skipped.  The verification primitive is PyNaCl's: on success it hands
    back the signed payload, and an anchor that does not verify makes it
    raise [BadSignatureError]. *)
Theorem validate_returns_signed_message `{P : Crypto}
    (signature : string) (content : bytes) (s s1 : state)
    (d : bytes) (vs : list VerifyKey) :
  b64decode signature = Ok d ->
  make_verifiers s = (Ok vs, s1) ->
  (exists f, f ∈ vs /\ verifies f content (drop 10 d)) ->
  (forall f message, f ∈ vs ->
     verify f content (drop 10 d) = Ok message -> message = content) ->
  (forall f e, f ∈ vs ->
     verify f content (drop 10 d) = Raise e -> e = BadSignatureError) ->
  exists pre f post,
    vs = pre ++ f :: post /\
    Forall (fun k => rejects k content (drop 10 d)) pre /\
    verifies f content (drop 10 d) /\
    validate signature content s =
      (Ok content,
       log_to ([Debug_trying (length vs)]
               ++ skipped content (drop 10 d) pre
               ++ [Verify_call f content (drop 10 d); Debug_used f]) s1).
Proof.
  intros Hd Hvs Hsome Hpayload Hcontract.
  destruct (first_verifying vs content (drop 10 d) Hsome Hcontract)
    as (pre & f & post & m & Hsplit & Hpre & Hm).
  assert (m = content) as ->.
  { apply (Hpayload f); [|done]. rewrite Hsplit.
    apply elem_of_app. right. apply elem_of_cons. by left. }
  exists pre, f, post. split; [done|]. split; [done|]. split; [by exists content|].
  rewrite (validate_unfold _ _ _ _ _ _ Hd Hvs), Hsplit.
  rewrite (validate_loop_first _ _ _ _ _ content) by done.
  rewrite log_to_app. by rewrite <- Hsplit.
Qed.

(** C4, as amended. When the envelope base64-decodes and no trust anchor of
    the cached set verifies [content] against the raw signature, [validate]
    fails.  It raises [BadSignatureError], after having tried them all, when
    every anchor rejected with [BadSignatureError], and so in particular
    with an empty anchor set; otherwise it raises what the first anchor
    raised that raised something else, the anchors after that one not being
    asked.  One of the two is always the case. *)
Theorem validate_fails_when_none_verifies `{P : Crypto}
    (signature : string) (content : bytes) (s s1 : state)
    (d : bytes) (vs : list VerifyKey) :
  b64decode signature = Ok d ->
  make_verifiers s = (Ok vs, s1) ->
  (forall f, f ∈ vs -> ~ verifies f content (drop 10 d)) ->
  (Forall (fun f => rejects f content (drop 10 d)) vs ->
   validate signature content s =
     (Raise BadSignatureError,
      log_to ([Debug_trying (length vs)] ++ skipped content (drop 10 d) vs) s1))
  /\ (vs = [] ->
      validate signature content s =
        (Raise BadSignatureError, log_to [Debug_trying 0] s1))
  /\ (forall pre f post e,
        vs = pre ++ f :: post ->
        Forall (fun k => rejects k content (drop 10 d)) pre ->
        verify f content (drop 10 d) = Raise e ->
        e <> BadSignatureError ->
        validate signature content s =
          (Raise e,
           log_to ([Debug_trying (length vs)]
                   ++ skipped content (drop 10 d) pre
                   ++ [Verify_call f content (drop 10 d)]) s1))
  /\ (Forall (fun f => rejects f content (drop 10 d)) vs \/
      exists pre f post e,
        vs = pre ++ f :: post /\
        Forall (fun k => rejects k content (drop 10 d)) pre /\
        verify f content (drop 10 d) = Raise e /\
        e <> BadSignatureError).
Proof.
  intros Hd Hvs Hnone.
  rewrite (validate_unfold _ _ _ _ _ _ Hd Hvs).
  split; [|split; [|split]].
  - intros Hall. rewrite validate_loop_none by done. by rewrite log_to_app.
  - intros ->. reflexivity.
  - intros pre f post e -> Hpre Hf Hne.
    rewrite (validate_loop_stops pre f post _ _ e) by done.
    by rewrite log_to_app.
  - by apply none_verifies_cases.
Qed.

(** C5, as amended. A signature envelope that [b64decode] refuses makes
    [validate] raise the decoder's error at once: the state is untouched, so
    the anchors were neither built nor tried.  On an envelope that decodes,
    [validate] makes no check of the size of the blob: it drops the first 10
    bytes and, when there is an anchor, asks the first one to verify what is
    left.  What that call raises, other than [BadSignatureError], is what
    [validate] raises; with no anchor at all [validate] raises
    [BadSignatureError]. *)
Theorem validate_malformed_envelope `{P : Crypto}
    (signature : string) (content : bytes) (s : state) :
  (forall e, b64decode signature = Raise e ->
     validate signature content s = (Raise e, s))
  /\ (forall d f rest s1,
        b64decode signature = Ok d ->
        make_verifiers s = (Ok (f :: rest), s1) ->
        exists tail,
          verify_calls (events (snd (validate signature content s))) =
          verify_calls (events s1) ++ (f, content, drop 10 d) :: tail)
  /\ (forall d f rest s1 e,
        b64decode signature = Ok d ->
        make_verifiers s = (Ok (f :: rest), s1) ->
        verify f content (drop 10 d) = Raise e ->
        e <> BadSignatureError ->
        validate signature content s =
          (Raise e,
           log_to [Debug_trying (length (f :: rest));
                   Verify_call f content (drop 10 d)] s1))
  /\ (forall d s1,
        b64decode signature = Ok d ->
        make_verifiers s = (Ok [], s1) ->
        validate signature content s =
          (Raise BadSignatureError, log_to [Debug_trying 0] s1)).
Proof.
  split; [|split; [|split]].
  - intros e He. unfold validate, bind, lift, strip_envelope. by rewrite He.
  - intros d f rest s1 Hd Hvs.
    rewrite (validate_unfold _ _ _ _ _ _ Hd Hvs).
    destruct (validate_loop_asks_first f rest content (drop 10 d)
                (log_to [Debug_trying (length (f :: rest))] s1)) as [tail ->].
    exists tail. unfold verify_calls. cbn [log_to events].
    rewrite omap_app. cbn. by rewrite app_nil_r.
  - intros d f rest s1 e Hd Hvs Hf Hne.
    rewrite (validate_unfold _ _ _ _ _ _ Hd Hvs).
    rewrite (validate_loop_other _ _ _ _ e) by done.
    by rewrite log_to_app.
  - intros d s1 Hd Hvs.
    by rewrite (validate_unfold _ _ _ _ _ _ Hd Hvs).
Qed.

(** Concrete scenario 1 of the specification: anchors C and B in this order,
    a message signed under B. *)
Lemma validate_returns_signed_message_witness :
  exists pre f post,
    sample.anchors = pre ++ f :: post /\
    Forall (fun k => @rejects sample.two_anchors k sample.content
                       (sample.key_B ++ sample.key_B)) pre /\
    @verifies sample.two_anchors f sample.content (sample.key_B ++ sample.key_B) /\
    @validate sample.two_anchors sample.b64_sig_B sample.content
        (sample.fresh _) =
      (Ok sample.content,
       log_to ([Debug_trying 2]
               ++ skipped sample.content (sample.key_B ++ sample.key_B) pre
               ++ [Verify_call f sample.content (sample.key_B ++ sample.key_B);
                   Debug_used f])
         sample.warm).
Proof.
  apply (@validate_returns_signed_message sample.two_anchors
           sample.b64_sig_B sample.content (sample.fresh _) sample.warm
           (replicate 10 x00 ++ sample.key_B ++ sample.key_B) sample.anchors).
  - reflexivity.
  - reflexivity.
  - exists sample.key_B. split.
    + apply elem_of_cons. right. apply elem_of_cons. by left.
    + exists sample.content. reflexivity.
  - intros f message _. cbn. unfold sample.toy_verify.
    destruct (decide _); congruence.
  - intros f e _. cbn. unfold sample.toy_verify.
    destruct (decide _); congruence.
Defined.

Lemma validate_fails_when_none_verifies_witness :
  @validate sample.two_anchors "AAAA" sample.content (sample.fresh _) =
    (Raise BadSignatureError,
     log_to ([Debug_trying 2] ++ skipped sample.content [] sample.anchors)
       sample.warm).
Proof.
  refine (proj1 (@validate_fails_when_none_verifies sample.two_anchors
                   "AAAA" sample.content (sample.fresh _) sample.warm
                   [x00; x00; x00] sample.anchors _ _ _) _).
  - reflexivity.
  - reflexivity.
  - intros f Hf [m Hm].
    apply elem_of_cons in Hf as [->|Hf]; [discriminate Hm|].
    apply elem_of_cons in Hf as [->|Hf]; [discriminate Hm|].
    by apply elem_of_nil in Hf.
  - repeat constructor.
Defined.

(** C4 as stated fails for a verification primitive that, like
    [VerifyKey.verify] of PyNaCl, refuses a raw signature that is not 64
    bytes long with [ValueError].  The envelope "AAAA" decodes, to three
    bytes; no anchor verifies; and [validate] raises [ValueError], not
    [BadSignatureError]. *)
Lemma validate_none_verifies_other_error :
  @b64decode more_samples.strict "AAAA" = Ok [x00; x00; x00] /\
  Forall (fun f => forall m,
            @verify more_samples.strict f sample.content [] <> Ok m)
    more_samples.strict_anchors /\
  fst (@validate more_samples.strict "AAAA" sample.content
         (sample.fresh more_samples.strict)) = Raise ValueError /\
  ValueError <> BadSignatureError.
Proof.
  split; [reflexivity|]. split; [|split; [reflexivity|discriminate]].
  repeat constructor; intros m; discriminate.
Qed.

Lemma validate_malformed_envelope_witness :
  @validate sample.two_anchors "A" sample.content (sample.fresh _) =
    (Raise binascii_Error, sample.fresh _)
  /\ (exists tail,
        verify_calls
          (events (snd (@validate sample.two_anchors "AAAA" sample.content
                          (sample.fresh _)))) =
        verify_calls (events sample.warm)
        ++ (sample.key_C, sample.content, []) :: tail)
  /\ @validate more_samples.strict "AAAA" sample.content
         (sample.fresh more_samples.strict) =
       (Raise ValueError,
        log_to [Debug_trying 2;
                Verify_call (sample.key_C : @VerifyKey more_samples.strict)
                  sample.content []]
          more_samples.strict_warm)
  /\ @validate sample.no_anchor "AAAA" sample.content (sample.fresh _) =
       (Raise BadSignatureError, log_to [Debug_trying 0] sample.warm_empty).
Proof.
  split; [|split; [|split]].
  - apply (proj1 (@validate_malformed_envelope sample.two_anchors
                    "A" sample.content (sample.fresh _))).
    reflexivity.
  - apply (proj1 (proj2 (@validate_malformed_envelope sample.two_anchors
                           "AAAA" sample.content (sample.fresh _)))
             [x00; x00; x00] sample.key_C [sample.key_B] sample.warm);
      reflexivity.
  - apply (proj1 (proj2 (proj2 (@validate_malformed_envelope more_samples.strict
                                   "AAAA" sample.content
                                   (sample.fresh more_samples.strict))))
             [x00; x00; x00] sample.key_C [sample.key_B]
             more_samples.strict_warm ValueError);
      [reflexivity|reflexivity|reflexivity|discriminate].
  - apply (proj2 (proj2 (proj2 (@validate_malformed_envelope sample.no_anchor
                                   "AAAA" sample.content (sample.fresh _))))
             [x00; x00; x00] sample.warm_empty);
      reflexivity.
Defined.

(** C5 as stated fails: the envelope "AAAA" decodes to a blob of three
    bytes, shorter than the 10-byte prefix alone, and [validate] does not
    refuse it before verification.  With a primitive that, like
    [VerifyKey.verify] of PyNaCl, refuses a raw signature that is not 64
    bytes long, the first anchor is asked to verify the empty raw signature
    and the error is the one raised inside that call; with no anchor, the
    error is [BadSignatureError], the one of a signature no anchor
    accepts. *)
Lemma validate_undersized_reaches_verifiers :
  @b64decode more_samples.strict "AAAA" = Ok [x00; x00; x00] /\
  (exists s,
     @validate more_samples.strict "AAAA" sample.content
         (sample.fresh more_samples.strict) = (Raise ValueError, s) /\
     verify_calls (events s) =
       [((sample.key_C : @VerifyKey more_samples.strict), sample.content, [])]) /\
  fst (@validate sample.no_anchor "AAAA" sample.content (sample.fresh _)) =
    Raise BadSignatureError.
Proof.
  split; [reflexivity|]. split; [|reflexivity].
  eexists. split; reflexivity.
Qed.

End crypto_claims.


(* ===================================================================== *)
(** * Properties of nm.py                                                 *)
(* ===================================================================== *)

Module nm_facts.
Import nm.

(** Unfolding one layer of the monad and of the primitive effects. *)
Ltac py_unfold :=
  unfold log, call, time_sleep, idle_add, submit, set_uuid,
         replace_settings_from_connection, get_uuid, get_connection_by_uuid,
         get_primary_connection, finish, emit, modify,
         bind, ret, raise, try_, lift, get in *.

Ltac py_run := repeat (progress (py_unfold; cbn in * )).

Lemma calls_journal_app cb w l :
  calls cb (set_journal (journal w ++ l) w) =
  (calls cb w + length (List.filter (is_call_of cb) l))%nat.
Proof. unfold calls. cbn. by rewrite List.filter_app, List.length_app. Qed.

Lemma held_submit cb r w :
  held cb (set_requests (requests w ++ [r]) w) <->
  held cb w \/ user_data_of r = Some cb.
Proof.
  unfold held. cbn. rewrite fmap_app, elem_of_app. cbn.
  rewrite elem_of_cons, elem_of_nil. intuition congruence.
Qed.

Lemma held_delete cb i w :
  held cb (set_requests (delete i (requests w)) w) -> held cb w.
Proof.
  unfold held. cbn. intros (r & -> & Hr)%list_elem_of_fmap.
  apply list_elem_of_fmap. exists r. split; [done|].
  by eapply list_elem_of_delete_inv.
Qed.

Lemma held_lookup cb i r w :
  requests w !! i = Some r -> user_data_of r = Some cb -> held cb w.
Proof.
  intros Hi Hr. unfold held. apply list_elem_of_fmap. exists r. split; [done|].
  by eapply list_elem_of_lookup_2.
Qed.

(** ** The two branches of [activate_connection] *)

Lemma activate_connection_unresolved uuid callback w :
  connections w !! uuid = None ->
  activate_connection uuid callback w =
    (Ok tt,
     set_idle (idle w ++ [Retry_activate uuid])
       (set_journal
          (journal w ++ [Log INFO "activate_connection uuid: {uuid} connection: {con}";
                         Sleep 100]) w)).
Proof.
  intros Hnone. destruct w. unfold activate_connection. py_run.
  rewrite Hnone. cbn. by rewrite <- app_assoc.
Qed.

Lemma activate_connection_resolved uuid callback w c :
  connections w !! uuid = Some c ->
  activate_connection uuid callback w =
    (Ok tt,
     set_requests (requests w ++ [Activate_connection uuid callback])
       (set_journal
          (journal w ++ [Log INFO "activate_connection uuid: {uuid} connection: {con}"])
          w)).
Proof.
  intros Hsome. destruct w. unfold activate_connection. py_run.
  by rewrite Hsome.
Qed.

(** ** The branches of [deactivate_connection] *)

Lemma deactivate_connection_no_primary uuid callback w :
  primary_connection w = None ->
  deactivate_connection uuid callback w =
    (Ok tt,
     set_journal
       (journal w ++ [Log DEBUG "deactivate_connection uuid: {uuid} connection: {con}";
                      Log INFO "No active connection to deactivate"]) w).
Proof.
  intros Hnone. destruct w. unfold deactivate_connection. py_run.
  rewrite Hnone. cbn. by rewrite <- app_assoc.
Qed.

Lemma deactivate_connection_other uuid callback w c :
  primary_connection w = Some c -> a_uuid c <> uuid ->
  deactivate_connection uuid callback w =
    (Ok tt,
     set_journal
       (journal w ++ [Log DEBUG "deactivate_connection uuid: {uuid} connection: {con}"])
       w).
Proof.
  intros Hsome Hne. destruct w. unfold deactivate_connection. py_run.
  rewrite Hsome. cbn.
  assert (String.eqb uuid (a_uuid c) = false) as -> by (apply String.eqb_neq; congruence).
  reflexivity.
Qed.

Lemma deactivate_connection_primary uuid callback w c :
  primary_connection w = Some c -> a_uuid c = uuid ->
  deactivate_connection uuid callback w =
    (Ok tt,
     set_requests (requests w ++ [Deactivate_connection c callback])
       (set_journal
          (journal w ++ [Log DEBUG "deactivate_connection uuid: {uuid} connection: {con}"])
          w)).
Proof.
  intros Hsome <-. destruct w. unfold deactivate_connection. py_run.
  rewrite Hsome. cbn. by rewrite String.eqb_refl.
Qed.

(** ** What a completion callback can touch *)

(** A completion callback leaves the outstanding calls alone, and runs no
    callable but the one it was submitted with. *)
Lemma on_finish_frame cb r res w :
  user_data_of r <> Some cb ->
  requests (snd (on_finish r res w)) = requests w /\
  idle (snd (on_finish r res w)) = idle w /\
  calls cb (snd (on_finish r res w)) = calls cb w.
Proof.
  intros Hne.
  destruct r as [c u|rc u|c u|a u], res, u as [cb'|]; cbn in Hne;
    unfold on_finish, add_connection_callback, update_connection_callback,
           activate_connection_callback, on_deactivate_connection;
    py_run; (split; [reflexivity|]); (split; [reflexivity|]);
    unfold calls; cbn;
    rewrite ?List.filter_app, ?List.length_app; cbn;
    try (assert (Nat.eqb cb cb' = false) as -> by (apply Nat.eqb_neq; congruence));
    cbn; lia.
Qed.

Lemma registered_frame r res w :
  requests (registered r res w) = requests w /\
  idle (registered r res w) = idle w /\
  journal (registered r res w) = journal w /\
  stored_uuid (registered r res w) = stored_uuid w.
Proof. by destruct r, res. Qed.

(** ** A callable nobody holds is never run *)

Lemma step_quiet cb w w' :
  step w w' -> ~ held cb w ->
  ~ held cb w' /\ calls cb w' = calls cb w.
Proof.
  intros Hstep Hfree. destruct Hstep as [w w' Hidle|i res w w' Hdone|c p a b w].
  - unfold dispatch_idle in Hidle.
    destruct (idle w) as [|[uuid] rest] eqn:Hq; [done|].
    injection Hidle as <-.
    destruct (connections w !! uuid) as [x|] eqn:Hres.
    + rewrite (activate_connection_resolved uuid None _ x) by done. cbn. split.
      * unfold held in *. cbn. rewrite fmap_app, elem_of_app. cbn.
        rewrite elem_of_cons, elem_of_nil. intuition congruence.
      * unfold calls. cbn. rewrite List.filter_app, List.length_app. cbn. lia.
    + rewrite (activate_connection_unresolved uuid None) by done. cbn. split.
      * done.
      * unfold calls. cbn. rewrite List.filter_app, List.length_app. cbn. lia.
  - unfold complete in Hdone.
    destruct (requests w !! i) as [r|] eqn:Hi; [|done].
    injection Hdone as <-.
    assert (user_data_of r <> Some cb) as Hr.
    { intros Hr. apply Hfree. by eapply held_lookup. }
    destruct (on_finish_frame cb r res
                (registered r res (set_requests (delete i (requests w)) w)) Hr)
      as (Hreq & _ & Hcalls).
    destruct (registered_frame r res (set_requests (delete i (requests w)) w))
      as (Hreq' & _ & Hj & _).
    split.
    + unfold held. rewrite Hreq, Hreq'. intros Hheld. apply Hfree.
      by apply (held_delete cb i w).
    + rewrite Hcalls. unfold calls. by rewrite Hj.
  - done.
Qed.

Lemma reachable_quiet cb w w' :
  rtc step w w' -> ~ held cb w ->
  ~ held cb w' /\ calls cb w' = calls cb w.
Proof.
  induction 1 as [w|w w1 w' Hstep _ IH]; intros Hfree; [done|].
  destruct (step_quiet cb w w1 Hstep Hfree) as [Hfree1 Hcalls1].
  destruct (IH Hfree1) as [Hfree' Hcalls']. split; [done|congruence].
Qed.

(** ** Re-entry of [activate_connection] from the loop *)



(** ** The loop of [init_dbus_system_bus] *)

Lemma scan_active_found pre a post cb w :
  Forall (fun x => Vpn x = false) pre -> Vpn a = true ->
  scan_active (pre ++ a :: post) cb w =
    (Ok true, set_journal (journal w ++ passed_over pre ++ reported cb a) w).
Proof.
  intros Hpre Ha. revert w. induction Hpre as [|x pre Hx _ IH]; intros w.
  - cbn [app scan_active]. py_run. rewrite Ha. py_run.
    by rewrite <- !app_assoc.
  - cbn [app scan_active]. py_run. rewrite Hx, IH. cbn.
    by rewrite <- !app_assoc.
Qed.

Lemma scan_active_none l cb w :
  Forall (fun x => Vpn x = false) l ->
  scan_active l cb w = (Ok false, set_journal (journal w ++ passed_over l) w).
Proof.
  intros Hl. revert w. induction Hl as [|x l Hx _ IH]; intros w.
  - cbn. py_run. rewrite app_nil_r. by destruct w.
  - cbn [scan_active]. py_run. rewrite Hx, IH. cbn.
    by rewrite <- !app_assoc.
Qed.

(** ** The two branches of [save_connection] *)

Lemma save_connection_add `{I : Importer}
    config private_key certificate callback new_con w :
  import_ovpn config private_key certificate = Ok new_con ->
  (truthy_str (stored_uuid w) = false \/
   exists u, stored_uuid w = Some u /\ connections w !! u = None) ->
  save_connection config private_key certificate callback w =
    (Ok tt,
     set_requests (requests w ++ [Add_connection new_con callback])
       (set_journal
          (journal w ++ [Log INFO "writing configuration to Network Manager";
                         Log INFO "Adding new connection"]) w)).
Proof.
  intros Himp Hstale. destruct w as [st conns pr ac bus rcv reqs idl jr].
  unfold save_connection, add_connection.
  py_run. rewrite Himp. cbn.
  destruct st as [u|]; cbn; [|by rewrite <- app_assoc].
  destruct u as [|a u]; cbn in *; [by rewrite <- app_assoc|].
  destruct Hstale as [Hfalsy|(u' & [= <-] & Hnone)]; [done|].
  rewrite Hnone. cbn. by rewrite <- app_assoc.
Qed.

Lemma save_connection_update `{I : Importer}
    config private_key certificate callback new_con w u old :
  import_ovpn config private_key certificate = Ok new_con ->
  stored_uuid w = Some u -> truthy_str (stored_uuid w) = true ->
  connections w !! u = Some old ->
  save_connection config private_key certificate callback w =
    (Ok tt,
     set_requests (requests w ++ [Commit_changes u callback])
       (set_connections (<[u := new_con]> (connections w))
          (set_journal
             (journal w ++ [Log INFO "writing configuration to Network Manager";
                            Log INFO "Updating existing connection with new configuration"])
             w))).
Proof.
  intros Himp Hst Htruthy Hold. destruct w as [st conns pr ac bus rcv reqs idl jr].
  unfold save_connection, update_connection.
  py_run. rewrite Himp. cbn. subst st. cbn in *.
  destruct u as [|a u]; cbn in *; [done|].
  rewrite Hold. cbn. by rewrite <- app_assoc.
Qed.

(** A finished activation or deactivation runs the callable it was
    submitted with once, whether the operation went through or not. *)
Lemma finished_operation_calls_back cb res w :
  calls cb (snd (activate_connection_callback res (Some cb) w)) = S (calls cb w) /\
  calls cb (snd (on_deactivate_connection res (Some cb) w)) = S (calls cb w).
Proof.
  destruct res; unfold activate_connection_callback, on_deactivate_connection;
    py_run; unfold calls; cbn;
    rewrite !List.filter_app, !List.length_app; cbn;
    rewrite Nat.eqb_refl; cbn; lia.
Qed.

(** The call submitted last is the one at index [length (requests w)]. *)
Lemma complete_last r res w rs :
  requests w = rs ++ [r] ->
  complete (length rs) res w =
    Some (snd (on_finish r res (registered r res (set_requests rs w)))).
Proof.
  intros Hreq. unfold complete. rewrite Hreq.
  rewrite (list_lookup_middle rs [] r (length rs) eq_refl).
  by rewrite delete_middle, app_nil_r.
Qed.

End nm_facts.

Module nm_claims.
Import nm nm_facts.

(** C2, where the code departs from it. On the paths on which an operation
    submits nothing to the manager ([deactivate] without a primary connection
    or with a primary connection of another uuid, [activate] of a uuid that
    does not resolve), the callable passed as [callback] is dropped: whatever
    happens afterwards (idle sources running, among them the scheduled
    re-entry of [activate], outstanding calls finishing, the manager's state
    changing), it has been run exactly as often as before the call, where
    the claim asks for once more. *)
Theorem callback_dropped_when_nothing_submitted
    (op : operation) (cb : Callback) (w w' : World) :
  submits_nothing op w ->
  ~ held cb w ->
  rtc step (snd (run_operation op (Some cb) w)) w' ->
  calls cb w' = calls cb w.
Proof.
  intros Hpath Hfree Hreach.
  assert (~ held cb (snd (run_operation op (Some cb) w)) /\
          calls cb (snd (run_operation op (Some cb) w)) = calls cb w) as [Hfree1 Hcalls1].
  { destruct op as [uuid|uuid]; cbn [run_operation submits_nothing] in Hpath |- *.
    - rewrite activate_connection_unresolved by done. cbn. split; [done|].
      unfold calls. cbn. rewrite List.filter_app, List.length_app. cbn. lia.
    - destruct (primary_connection w) as [c|] eqn:Hp.
      + rewrite (deactivate_connection_other _ _ _ c) by done. cbn. split; [done|].
        unfold calls. cbn. rewrite List.filter_app, List.length_app. cbn. lia.
      + rewrite deactivate_connection_no_primary by done. cbn. split; [done|].
        unfold calls. cbn. rewrite List.filter_app, List.length_app. cbn. lia. }
  destruct (reachable_quiet cb _ _ Hreach Hfree1) as [_ Hcalls].
  congruence.
Qed.

(** Concrete scenario 3 of the specification: "Y" does not resolve at the
    call, the manager then learns of it, the re-entry resolves it and
    submits the activation, and the activation finishes.  The callable 1
    passed to the first call has not been run, and nothing is left that
    could run it. *)
Lemma callback_dropped_when_nothing_submitted_witness :
  calls 1 sample.after_retry = calls 1 sample.world0 /\
  requests sample.after_retry = [] /\
  idle sample.after_retry = [].
Proof.
  split; [|split; reflexivity].
  apply (callback_dropped_when_nothing_submitted
           (Activate "Y") 1%nat sample.world0 sample.after_retry).
  - reflexivity.
  - unfold held. cbn. apply not_elem_of_nil.
  - eapply rtc_l; [apply (step_manager sample.now_known None [] [])|].
    eapply rtc_l; [apply step_idle; reflexivity|].
    eapply rtc_l; [apply (step_complete 0 (Done "")); reflexivity|].
    apply rtc_refl.
Defined.

(** [deactivate("X", callback=7)] without a primary connection: the call
    returns, nothing is outstanding or scheduled, and 7 has not been run. *)
Example deactivate_without_primary_drops_callback :
  let w := snd (deactivate_connection "X" (Some 7%nat) sample.world_stale) in
  calls 7 w = 0%nat /\ requests w = [] /\ idle w = [].
Proof. cbv zeta. repeat split; reflexivity. Qed.




(** C8. When there is no primary connection, or the primary connection has
    another uuid than the one passed, [deactivate] returns normally and
    changes nothing but the log: no call is submitted to the manager, the
    identifier store, the connections and the active connections are as
    before, and what was appended to the journal are log records only. *)
Theorem deactivate_connection_no_op
    (uuid : string) (callback : option Callback) (w : World) :
  submits_nothing (Deactivate uuid) w ->
  exists records,
    Forall (fun e => is_log e = true) records /\
    records <> [] /\
    deactivate_connection uuid callback w =
      (Ok tt, set_journal (journal w ++ records) w).
Proof.
  cbn [submits_nothing]. intros Hpath.
  destruct (primary_connection w) as [c|] eqn:Hp.
  - eexists. rewrite (deactivate_connection_other _ _ _ c) by done.
    split; [|split; [|reflexivity]]; [by repeat constructor|done].
  - eexists. rewrite deactivate_connection_no_primary by done.
    split; [|split; [|reflexivity]]; [by repeat constructor|done].
Qed.

Lemma deactivate_connection_no_op_witness :
  exists records,
    Forall (fun e => is_log e = true) records /\
    records <> [] /\
    deactivate_connection "X" (Some 7%nat) sample.world_other_primary =
      (Ok tt,
       set_journal (journal sample.world_other_primary ++ records)
         sample.world_other_primary).
Proof.
  apply (deactivate_connection_no_op "X" (Some 7%nat) sample.world_other_primary).
  cbn. discriminate.
Defined.

(** C10. [get_vpn_status] returns (UNKNOWN, UNKNOWN) whenever the number of
    active connections of type [NM.VpnConnection] is not exactly one; with
    none of them the state is untouched, with more than one a warning is
    logged, and the value returned is the same in both cases. *)
Theorem get_vpn_status_unknown (w : World) :
  length (vpns_of (active_connections w)) <> 1%nat ->
  get_vpn_status w =
    (Ok (VpnConnectionState.UNKNOWN, VpnConnectionStateReason.UNKNOWN),
     if Nat.ltb 1 (length (vpns_of (active_connections w)))
     then set_journal (journal w ++ [Log WARNING "more than one VPN connection active"]) w
     else w).
Proof.
  intros Hlen. unfold get_vpn_status, bind at 1, get. cbv beta iota zeta.
  destruct (Nat.ltb 1 (length (vpns_of (active_connections w)))) eqn:Hgt.
  - reflexivity.
  - apply Nat.ltb_ge in Hgt.
    assert (length (vpns_of (active_connections w)) = 0%nat) as -> by lia.
    reflexivity.
Qed.

Lemma get_vpn_status_unknown_witness :
  get_vpn_status sample.world_two_vpns =
    (Ok (VpnConnectionState.UNKNOWN, VpnConnectionStateReason.UNKNOWN),
     set_journal [Log WARNING "more than one VPN connection active"]
       sample.world_two_vpns)
  /\ get_vpn_status sample.world_other_primary =
    (Ok (VpnConnectionState.UNKNOWN, VpnConnectionStateReason.UNKNOWN),
     sample.world_other_primary).
Proof.
  split.
  - apply (get_vpn_status_unknown sample.world_two_vpns).
    vm_compute. intros H. discriminate H.
  - apply (get_vpn_status_unknown sample.world_other_primary).
    vm_compute. intros H. discriminate H.
Defined.

(** C9, as amended. [init_dbus_system_bus] registers the receiver, reads the
    list of active connections once and runs the callable once before it
    returns: with the raw [VpnState] of the first active connection whose
    [Vpn] property is set, whether or not further ones follow it, and with
    DISCONNECTED when no active connection has the property set. *)
Theorem init_dbus_system_bus_initial_state (callback : Callback) (w : World) :
  (forall pre a post,
     bus_active_connections w = pre ++ a :: post ->
     Forall (fun x => Vpn x = false) pre -> Vpn a = true ->
     init_dbus_system_bus callback w =
       (Ok tt,
        set_journal
          (journal w ++ [Property_get "ActiveConnections"]
           ++ passed_over pre ++ reported callback a)
          (set_signal_receivers (signal_receivers w ++ [callback]) w)))
  /\ (Forall (fun x => Vpn x = false) (bus_active_connections w) ->
      init_dbus_system_bus callback w =
        (Ok tt,
         set_journal
           (journal w ++ [Property_get "ActiveConnections"]
            ++ passed_over (bus_active_connections w)
            ++ [Called callback [Arg_enum VpnConnectionState.DISCONNECTED;
                                 Arg_enum VpnConnectionStateReason.NONE]])
           (set_signal_receivers (signal_receivers w ++ [callback]) w))).
Proof.
  split.
  - intros pre a post Hsplit Hpre Ha.
    unfold init_dbus_system_bus. py_run.
    rewrite Hsplit, scan_active_found by done. cbn.
    by rewrite <- !app_assoc.
  - intros Hnone.
    unfold init_dbus_system_bus. py_run.
    rewrite scan_active_none by done. cbn.
    by rewrite <- !app_assoc.
Qed.

Lemma init_dbus_system_bus_initial_state_witness :
  List.filter is_called
    (journal (snd (init_dbus_system_bus 1%nat sample.world_two_vpns))) =
    [Called 1%nat [Arg_enum (VpnConnectionStateReason.of_raw 5);
                   Arg_enum VpnConnectionStateReason.NONE]]
  /\ List.filter is_called
       (journal (snd (init_dbus_system_bus 1%nat sample.world_other_primary))) =
       [Called 1%nat [Arg_enum VpnConnectionState.DISCONNECTED;
                      Arg_enum VpnConnectionStateReason.NONE]].
Proof.
  split.
  - rewrite (proj1 (init_dbus_system_bus_initial_state 1%nat sample.world_two_vpns)
               [ {| Id := "Z"; Vpn := false; VpnState := 0 |} ]
               {| Id := "A"; Vpn := true; VpnState := 5 |}
               [ {| Id := "B"; Vpn := true; VpnState := 3 |} ]).
    + reflexivity.
    + reflexivity.
    + by repeat constructor.
    + reflexivity.
  - rewrite (proj2 (init_dbus_system_bus_initial_state 1%nat
                      sample.world_other_primary)).
    + reflexivity.
    + constructor.
Defined.

(** C9 as stated fails: with two VPN-typed connections active, A in raw
    state 5 and B in raw state 3, the state reported is not DISCONNECTED but
    the raw state of A. *)
Lemma init_dbus_system_bus_two_vpns :
  List.filter (fun x => Vpn x) (bus_active_connections sample.world_two_vpns) =
    [ {| Id := "A"; Vpn := true; VpnState := 5 |};
      {| Id := "B"; Vpn := true; VpnState := 3 |} ] /\
  List.filter is_called
    (journal (snd (init_dbus_system_bus 1%nat sample.world_two_vpns))) =
    [Called 1%nat [Arg_enum (VpnConnectionStateReason.of_raw 5);
                   Arg_enum VpnConnectionStateReason.NONE]] /\
  enum_value (VpnConnectionStateReason.of_raw 5) <>
    enum_value VpnConnectionState.DISCONNECTED.
Proof. repeat split; try reflexivity. cbn. lia. Qed.

(** C6. With no stored identifier (the value read from the store is falsy:
    [None] or the empty string), or with a stored identifier the manager
    does not resolve, [save_connection] returns normally having submitted
    the imported connection to the manager as a new one, the store being
    left as it was; when the manager finishes the add and has given the
    connection the uuid [new_uuid], the store is written exactly once and
    holds [new_uuid], whatever it held before, and the manager resolves
    [new_uuid] to the imported connection. *)
Theorem save_connection_inserts `{I : Importer}
    (config private_key certificate : string) (callback : option Callback)
    (new_con : Settings) (w : World) :
  import_ovpn config private_key certificate = Ok new_con ->
  (truthy_str (stored_uuid w) = false \/
   exists u, stored_uuid w = Some u /\ connections w !! u = None) ->
  exists w1,
    save_connection config private_key certificate callback w = (Ok tt, w1) /\
    requests w1 = requests w ++ [Add_connection new_con callback] /\
    stored_uuid w1 = stored_uuid w /\
    store_writes w1 = store_writes w /\
    connections w1 = connections w /\
    forall new_uuid, exists w2,
      complete (length (requests w)) (Done new_uuid) w1 = Some w2 /\
      stored_uuid w2 = Some new_uuid /\
      store_writes w2 = store_writes w ++ [Set_uuid new_uuid] /\
      connections w2 !! new_uuid = Some new_con /\
      requests w2 = requests w.
Proof.
  intros Himp Hstale. eexists. split.
  { by apply save_connection_add. }
  cbn. repeat split.
  - unfold store_writes. cbn. rewrite List.filter_app. cbn. by rewrite app_nil_r.
  - intros new_uuid. eexists. split.
    { by apply (complete_last (Add_connection new_con callback)). }
    destruct callback as [cb|]; cbn; repeat split;
      try (unfold store_writes; cbn; rewrite !List.filter_app; cbn;
           by rewrite ?app_nil_r);
      by apply lookup_insert_eq.
Qed.

(** Concrete scenario 2 of the specification: the stored id "X" does not
    resolve; the connection is added and the new id "N" replaces "X". *)
Lemma save_connection_inserts_witness :
  exists w1,
    @save_connection sample.importer "vpn.example.org" "key" "cert" (Some 7%nat)
        sample.world_stale = (Ok tt, w1) /\
    requests w1 =
      requests sample.world_stale
      ++ [Add_connection [("remote", "vpn.example.org")] (Some 7%nat)] /\
    stored_uuid w1 = stored_uuid sample.world_stale /\
    store_writes w1 = store_writes sample.world_stale /\
    connections w1 = connections sample.world_stale /\
    forall new_uuid, exists w2,
      @complete (length (requests sample.world_stale)) (Done new_uuid) w1 = Some w2 /\
      stored_uuid w2 = Some new_uuid /\
      store_writes w2 = store_writes sample.world_stale ++ [Set_uuid new_uuid] /\
      connections w2 !! new_uuid = Some [("remote", "vpn.example.org")] /\
      requests w2 = requests sample.world_stale.
Proof.
  apply (@save_connection_inserts sample.importer "vpn.example.org" "key" "cert"
           (Some 7%nat) [("remote", "vpn.example.org")] sample.world_stale).
  - reflexivity.
  - right. exists "X". split; reflexivity.
Defined.

(** C7. With a stored identifier (the value read from the store is truthy,
    which is what [if uuid:] asks) that the manager resolves, [save_connection]
    returns normally having replaced the settings of that connection by
    those of the imported one and submitted the commit, and nothing else is
    submitted; neither the call nor the completion of the commit, whether it
    succeeds or fails, writes the identifier store, which holds the same
    identifier throughout. *)
Theorem save_connection_updates `{I : Importer}
    (config private_key certificate : string) (callback : option Callback)
    (new_con old : Settings) (u : string) (w : World) :
  import_ovpn config private_key certificate = Ok new_con ->
  stored_uuid w = Some u -> truthy_str (stored_uuid w) = true ->
  connections w !! u = Some old ->
  exists w1,
    save_connection config private_key certificate callback w = (Ok tt, w1) /\
    connections w1 = <[u := new_con]> (connections w) /\
    requests w1 = requests w ++ [Commit_changes u callback] /\
    stored_uuid w1 = Some u /\
    store_writes w1 = store_writes w /\
    forall res, exists w2,
      complete (length (requests w)) res w1 = Some w2 /\
      stored_uuid w2 = Some u /\
      store_writes w2 = store_writes w /\
      connections w2 = <[u := new_con]> (connections w) /\
      requests w2 = requests w.
Proof.
  intros Himp Hst Htruthy Hold. eexists. split.
  { by eapply save_connection_update. }
  cbn. repeat split; try done.
  - unfold store_writes. cbn. rewrite List.filter_app. cbn. by rewrite app_nil_r.
  - intros res. eexists. split.
    { by apply (complete_last (Commit_changes u callback)). }
    destruct res, callback as [cb|]; cbn; repeat split; try done;
      unfold store_writes; cbn; rewrite !List.filter_app; cbn;
      by rewrite ?app_nil_r.
Qed.

Lemma save_connection_updates_witness :
  exists w1,
    @save_connection sample.importer "vpn.example.org" "key" "cert" (Some 7%nat)
        sample.world_known = (Ok tt, w1) /\
    connections w1 =
      <["X" := [("remote", "vpn.example.org")]]> (connections sample.world_known) /\
    requests w1 = requests sample.world_known ++ [Commit_changes "X" (Some 7%nat)] /\
    stored_uuid w1 = Some "X" /\
    store_writes w1 = store_writes sample.world_known /\
    forall res, exists w2,
      @complete (length (requests sample.world_known)) res w1 = Some w2 /\
      stored_uuid w2 = Some "X" /\
      store_writes w2 = store_writes sample.world_known /\
      connections w2 =
        <["X" := [("remote", "vpn.example.org")]]> (connections sample.world_known) /\
      requests w2 = requests sample.world_known.
Proof.
  apply (@save_connection_updates sample.importer "vpn.example.org" "key" "cert"
           (Some 7%nat) [("remote", "vpn.example.org")]
           [("remote", "old.example.org")] "X" sample.world_known).
  - reflexivity.
  - reflexivity.
  - reflexivity.
  - reflexivity.
Defined.

End nm_claims.


(* ===================================================================== *)
(** * Further properties of crypto.py                                     *)
(* ===================================================================== *)

Module pkce_facts.
Import crypto.

(** Lists three elements at a time, the way the encoder takes them. *)
Lemma list_ind3 {A} (Q : list A -> Prop) :
  Q [] -> (forall a, Q [a]) -> (forall a b, Q [a; b]) ->
  (forall a b c l, Q l -> Q (a :: b :: c :: l)) ->
  forall l, Q l.
Proof.
  intros H0 H1 H2 H3 l.
  assert (Q l /\ (forall a, Q (a :: l)) /\ (forall a b, Q (a :: b :: l))) as [? _];
    [|done].
  induction l as [|x l (IH0 & IH1 & IH2)].
  - by repeat split.
  - split; [apply IH1|]. split; [intros a; apply IH2|].
    intros a b. by apply H3.
Qed.

Lemma sextet_in_alphabet n : (n < 64)%nat -> sextet n ∈ urlsafe_alphabet.
Proof.
  intros Hn. unfold sextet. apply list_elem_of_In, List.nth_In.
  by vm_compute.
Qed.

Lemma pad_not_in_alphabet : pad ∉ urlsafe_alphabet.
Proof.
  intros H. apply list_elem_of_In in H. vm_compute in H.
  repeat (destruct H as [H|H]; [discriminate H|]). exact H.
Qed.

(** The encoding is characters of the alphabet followed by the padding. *)
Lemma urlsafe_b64encode_shape (s : bytes) :
  exists body,
    urlsafe_b64encode s = body ++ replicate (pads (length s)) pad /\
    Forall (fun c => c ∈ urlsafe_alphabet) body /\
    length body = ((4 * length s + 2) / 3)%nat.
Proof.
  induction s as [|a|a b|a b c l (body & Henc & Hbody & Hlen)] using list_ind3.
  - exists []. by repeat split.
  - pose proof (Byte.to_nat_bounded a).
    exists [sextet (Byte.to_nat a / 4); sextet (Byte.to_nat a mod 4 * 16)].
    split; [reflexivity|]. split; [|reflexivity].
    repeat (apply Forall_cons_2; [apply sextet_in_alphabet; lia|]).
    apply Forall_nil_2.
  - pose proof (Byte.to_nat_bounded a). pose proof (Byte.to_nat_bounded b).
    exists [sextet (Byte.to_nat a / 4);
            sextet (Byte.to_nat a mod 4 * 16 + Byte.to_nat b / 16);
            sextet (Byte.to_nat b mod 16 * 4)].
    split; [reflexivity|]. split; [|reflexivity].
    repeat (apply Forall_cons_2; [apply sextet_in_alphabet; lia|]).
    apply Forall_nil_2.
  - pose proof (Byte.to_nat_bounded a). pose proof (Byte.to_nat_bounded b).
    pose proof (Byte.to_nat_bounded c).
    exists ([sextet (Byte.to_nat a / 4);
             sextet (Byte.to_nat a mod 4 * 16 + Byte.to_nat b / 16);
             sextet (Byte.to_nat b mod 16 * 4 + Byte.to_nat c / 64);
             sextet (Byte.to_nat c mod 64)] ++ body).
    split; [|split].
    + cbn [urlsafe_b64encode]. rewrite Henc.
      replace (pads (length (a :: b :: c :: l))) with (pads (length l)).
      { by rewrite <- app_assoc. }
      unfold pads. cbn [length]. lia.
    + cbn [app].
      repeat (apply Forall_cons_2; [apply sextet_in_alphabet; lia|]).
      exact Hbody.
    + cbn [length app]. rewrite Hlen. lia.
Qed.

Lemma rstrip_keeps (body : bytes) (c : byte) :
  Forall (fun x => x <> c) body -> rstrip body c = body.
Proof.
  induction 1 as [|x body Hx _ IH]; [done|].
  cbn. rewrite IH. destruct body; [|done]. by rewrite decide_False.
Qed.

Lemma rstrip_replicate (c : byte) k : rstrip (replicate k c) c = [].
Proof. induction k as [|k IH]; [done|]. cbn. rewrite IH. by rewrite decide_True. Qed.

Lemma rstrip_app_replicate (body : bytes) (c : byte) k :
  Forall (fun x => x <> c) body -> rstrip (body ++ replicate k c) c = body.
Proof.
  induction 1 as [|x body Hx Hbody IH]; cbn.
  - apply rstrip_replicate.
  - rewrite IH. destruct body; [|done]. by rewrite decide_False.
Qed.

(** The challenge for a digest is the unpadded part of its encoding. *)
Lemma strip_encoding (digest : bytes) :
  Forall (fun c => c ∈ urlsafe_alphabet) (rstrip (urlsafe_b64encode digest) pad) /\
  length (rstrip (urlsafe_b64encode digest) pad) = ((4 * length digest + 2) / 3)%nat /\
  urlsafe_b64encode digest =
    rstrip (urlsafe_b64encode digest) pad ++ replicate (pads (length digest)) pad.
Proof.
  destruct (urlsafe_b64encode_shape digest) as (body & Henc & Hbody & Hlen).
  assert (rstrip (urlsafe_b64encode digest) pad = body) as Hstrip.
  { rewrite Henc. apply rstrip_app_replicate.
    eapply Forall_impl; [exact Hbody|]. intros x Hx ->.
    by apply pad_not_in_alphabet. }
  by rewrite Hstrip.
Qed.

End pkce_facts.

Module validate_facts.
Import crypto crypto_facts.
Section with_primitives.
Context {P : Crypto}.
Implicit Types (f : VerifyKey) (vs pre post : list VerifyKey)
               (content decoded : bytes) (s : state).

Lemma verifiers_of_Forall2 (keys : list string) vs :
  verifiers_of keys = Ok vs <->
  Forall2 (fun k v => make_verifier k = Ok v) keys vs.
Proof.
  revert vs. induction keys as [|k keys IH]; intros vs; cbn.
  - split.
    + intros [= <-]. constructor.
    + intros ->%Forall2_nil_inv_l. done.
  - split.
    + destruct (make_verifier k) as [v|e] eqn:Hk; [|done].
      destruct (verifiers_of keys) as [vs'|e] eqn:Hks; [|done].
      intros [= <-]. constructor; [done|]. by apply IH.
    + intros (v & vs' & Hk & Hks & ->)%Forall2_cons_inv_l.
      rewrite Hk. apply IH in Hks. by rewrite Hks.
Qed.

Lemma verifiers_of_first_bad (pre post : list string) (k : string) e :
  Forall (fun k => exists v, make_verifier k = Ok v) pre ->
  make_verifier k = Raise e ->
  verifiers_of (pre ++ k :: post) = Raise e.
Proof.
  induction 1 as [|k' pre [v Hv] _ IH]; intros Hk; cbn.
  - by rewrite Hk.
  - rewrite Hv. by rewrite IH.
Qed.

(** The loop appends to the log and touches nothing else; the anchors it
    asks are an initial stretch of the list, each asked once, in order, about
    the same content and raw signature. *)
Lemma validate_loop_trace vs content decoded s :
  exists n l,
    (n <= length vs)%nat /\
    snd (validate_loop vs content decoded s) = log_to l s /\
    verify_calls l = (fun f => (f, content, decoded)) <$> take n vs.
Proof.
  revert s. induction vs as [|f vs IH]; intros s.
  - exists 0%nat, []. cbn. by rewrite log_to_nil.
  - destruct (verify f content decoded) as [m|e] eqn:Hf.
    + exists 1%nat, [Verify_call f content decoded; Debug_used f].
      rewrite (validate_loop_accept _ _ _ _ m) by done. cbn.
      split; [lia|done].
    + destruct (decide (e = BadSignatureError)) as [->|Hne].
      * rewrite validate_loop_reject by done.
        destruct (IH (log_to [Verify_call f content decoded; Debug_skipping f] s))
          as (n & l & Hn & -> & Hcalls).
        exists (S n), ([Verify_call f content decoded; Debug_skipping f] ++ l).
        rewrite log_to_app. cbn. split; [lia|]. split; [done|].
        unfold verify_calls in *. by rewrite Hcalls.
      * exists 1%nat, [Verify_call f content decoded].
        rewrite (validate_loop_other _ _ _ _ e) by done. cbn.
        split; [lia|done].
Qed.

(** Among anchors that verify or reject, the loop returns a message exactly
    when one of them verifies. *)
Lemma validate_loop_ok_iff vs content decoded s :
  (forall f e, f ∈ vs -> verify f content decoded = Raise e -> e = BadSignatureError) ->
  (exists m, fst (validate_loop vs content decoded s) = Ok m) <->
  (exists f, f ∈ vs /\ verifies f content decoded).
Proof.
  intros Hcontract. split.
  - revert s Hcontract. induction vs as [|f vs IH]; intros s Hcontract [m Hm].
    + done.
    + destruct (verify f content decoded) as [m'|e] eqn:Hf.
      * exists f. split; [by left|by exists m'].
      * assert (e = BadSignatureError) as -> by (eapply Hcontract; [left|done]).
        rewrite validate_loop_reject in Hm by done.
        destruct (IH (log_to [Verify_call f content decoded; Debug_skipping f] s))
          as (g & Hg & Hver).
        { intros g e Hg. apply Hcontract. by right. }
        { by exists m. }
        exists g. split; [by right|done].
  - intros Hsome.
    destruct (first_verifying vs content decoded Hsome Hcontract)
      as (pre & f & post & m & -> & Hpre & Hm).
    exists m. by rewrite (validate_loop_first _ _ _ _ _ m).
Qed.

Lemma make_verifiers_warm s vs :
  verifiers_cache s = Some vs -> make_verifiers s = (Ok vs, s).
Proof. intros Hc. unfold make_verifiers. by rewrite Hc. Qed.

End with_primitives.
End validate_facts.

Module crypto_extras.
Import crypto crypto_facts pkce_facts validate_facts.

Lemma length_string_of_list_ascii (l : list Ascii.ascii) :
  String.length (String.string_of_list_ascii l) = length l.
Proof. induction l as [|a l IH]; cbn; [done|]. by rewrite IH. Qed.

Lemma choose_shape `{R : SystemRandom} (n i : nat) :
  (forall j, (i <= j)%nat ->
     (randbelow j (length (String.list_ascii_of_string choices))
      < length (String.list_ascii_of_string choices))%nat) ->
  exists cs,
    choose n i = Some cs /\
    length cs = n /\
    Forall (fun c => c ∈ String.list_ascii_of_string choices) cs.
Proof.
  revert i. induction n as [|n IH]; intros i Hbelow; cbn [choose].
  - exists []. by repeat split.
  - destruct (IH (S i)) as (cs & -> & Hlen & Hall).
    { intros j Hj. apply Hbelow. lia. }
    unfold choice.
    destruct (lookup_lt_is_Some_2 (String.list_ascii_of_string choices)
                (randbelow i (length (String.list_ascii_of_string choices)))
                (Hbelow i (Nat.le_refl i))) as [c Hc].
    rewrite Hc. exists (c :: cs). split; [done|]. split; [by rewrite <- Hlen|].
    constructor; [|done]. by eapply list_elem_of_lookup_2.
Qed.

(** X1. When every call of [_randbelow(66)] made gives an index below 66,
    as the library promises, [gen_code_verifier(length)] returns a string of
    exactly [length] characters (none for a length of zero or less), all of
    them from the 66 characters of [choices]. *)
Theorem gen_code_verifier_shape `{R : SystemRandom} (len : Z) (i : nat) :
  (forall j, (i <= j)%nat -> (randbelow j 66 < 66)%nat) ->
  exists v,
    gen_code_verifier len i = Some v /\
    String.length v = Z.to_nat len /\
    Forall (fun c => c ∈ String.list_ascii_of_string choices)
      (String.list_ascii_of_string v).
Proof.
  intros Hbelow. unfold gen_code_verifier.
  destruct (choose_shape (Z.to_nat len) i Hbelow) as (cs & -> & Hlen & Hall).
  eexists. split; [reflexivity|].
  rewrite length_string_of_list_ascii, String.list_ascii_of_string_of_list_ascii.
  by split.
Qed.

Lemma gen_code_verifier_shape_witness :
  exists v,
    @gen_code_verifier more_samples.counting 128 0 = Some v /\
    String.length v = 128%nat /\
    Forall (fun c => c ∈ String.list_ascii_of_string choices)
      (String.list_ascii_of_string v).
Proof.
  apply (@gen_code_verifier_shape more_samples.counting 128 0).
  intros j _. change ((7 * j + 3) mod 66 < 66)%nat.
  apply Nat.mod_upper_bound. discriminate.
Defined.

(** X2. For a digest of [n] bytes the challenge has [(4n + 2) / 3]
    characters: the 32 bytes of SHA-256 always give a challenge of 43
    characters. *)
Theorem gen_code_challenge_length `{H : Hashlib} (code_verifier : string) (n : nat) :
  length (sha256 (String.list_byte_of_string code_verifier)) = n ->
  length (gen_code_challenge code_verifier) = ((4 * n + 2) / 3)%nat /\
  (n = 32%nat -> length (gen_code_challenge code_verifier) = 43%nat).
Proof.
  intros Hn. unfold gen_code_challenge. cbv zeta.
  destruct (strip_encoding (sha256 (String.list_byte_of_string code_verifier)))
    as (_ & Hlen & _).
  rewrite Hlen, Hn. split; [done|]. by intros ->.
Qed.

Lemma gen_code_challenge_length_witness :
  length (@gen_code_challenge more_samples.toy_hash "a-code-verifier") = 43%nat.
Proof.
  apply (@gen_code_challenge_length more_samples.toy_hash "a-code-verifier" 32);
    reflexivity.
Defined.

(** X3. Whatever the digest, the challenge consists of characters of the
    URL-safe base64 alphabet only and contains no [=]; putting the padding
    back gives the base64 encoding of the digest. *)
Theorem gen_code_challenge_alphabet `{H : Hashlib} (code_verifier : string) :
  Forall (fun c => c ∈ urlsafe_alphabet) (gen_code_challenge code_verifier) /\
  (pad ∉ gen_code_challenge code_verifier) /\
  urlsafe_b64encode (sha256 (String.list_byte_of_string code_verifier)) =
    gen_code_challenge code_verifier
    ++ replicate (pads (length (sha256 (String.list_byte_of_string code_verifier)))) pad.
Proof.
  unfold gen_code_challenge. cbv zeta.
  destruct (strip_encoding (sha256 (String.list_byte_of_string code_verifier)))
    as (Hall & _ & Henc).
  split; [done|]. split; [|done].
  intros Hin. rewrite Forall_forall in Hall.
  by apply pad_not_in_alphabet, Hall.
Qed.

(** X4. On a cache miss [make_verifiers] builds one anchor for each entry
    of [VERIFY_KEYS], in the order of the entries, each one what
    [make_verifier] gives for that entry, and stores the list. *)
Theorem make_verifiers_one_per_key `{P : Crypto}
    (s s1 : state) (vs : list VerifyKey) :
  verifiers_cache s = None ->
  make_verifiers s = (Ok vs, s1) ->
  Forall2 (fun k v => make_verifier k = Ok v) VERIFY_KEYS vs /\
  length vs = length VERIFY_KEYS /\
  s1 = {| verifiers_cache := Some vs; events := events s |}.
Proof.
  intros Hc. unfold make_verifiers. rewrite Hc.
  destruct (verifiers_of VERIFY_KEYS) as [vs'|e] eqn:Hvs; [|done].
  intros [= <- <-]. apply verifiers_of_Forall2 in Hvs.
  split; [done|]. split; [|done]. symmetry. by eapply Forall2_length.
Qed.

Lemma make_verifiers_one_per_key_witness :
  Forall2 (fun k v => @make_verifier sample.two_anchors k = Ok v)
    [sample.b64_key_C; sample.b64_key_B] sample.anchors /\
  length sample.anchors = 2%nat /\
  sample.warm = {| verifiers_cache := Some sample.anchors; events := [] |}.
Proof.
  apply (@make_verifiers_one_per_key sample.two_anchors
           (sample.fresh _) sample.warm sample.anchors);
    reflexivity.
Defined.

(** X5. When an entry of [VERIFY_KEYS] cannot be made into an anchor, and
    all entries before it can, [make_verifiers] raises what that entry
    raises and stores nothing; [validate] then raises the same for every
    signature that decodes, without asking any anchor and without changing
    the state, so that the next call builds the anchors anew. *)
Theorem make_verifiers_bad_key `{P : Crypto}
    (s : state) (pre post : list string) (k : string) (e : exception) :
  verifiers_cache s = None ->
  VERIFY_KEYS = pre ++ k :: post ->
  Forall (fun k => exists v, make_verifier k = Ok v) pre ->
  make_verifier k = Raise e ->
  make_verifiers s = (Raise e, s) /\
  forall signature content d,
    b64decode signature = Ok d ->
    validate signature content s = (Raise e, s).
Proof.
  intros Hc Hkeys Hpre Hk.
  assert (make_verifiers s = (Raise e, s)) as Hmv.
  { unfold make_verifiers. rewrite Hc, Hkeys.
    by rewrite (verifiers_of_first_bad pre post k e). }
  split; [done|].
  intros signature content d Hd.
  unfold validate, bind at 1, lift, strip_envelope. rewrite Hd.
  unfold bind at 1. by rewrite Hmv.
Qed.

Lemma make_verifiers_bad_key_witness :
  @make_verifiers more_samples.bad_second_key (sample.fresh _) =
    (Raise ValueError, sample.fresh _) /\
  forall signature content d,
    @b64decode more_samples.bad_second_key signature = Ok d ->
    @validate more_samples.bad_second_key signature content (sample.fresh _) =
      (Raise ValueError, sample.fresh _).
Proof.
  apply (@make_verifiers_bad_key more_samples.bad_second_key (sample.fresh _)
           [sample.b64_key_C] [] "AAAA" ValueError).
  - reflexivity.
  - reflexivity.
  - constructor; [|constructor]. by exists sample.key_C.
  - reflexivity.
Defined.

(** X6. With the anchors already cached, [validate] leaves the cache as it
    is and only appends to the log; the anchors it asks are an initial
    stretch of the cached list, in order and each at most once, and each is
    asked about exactly the content passed and the decoded signature without
    its first 10 bytes. *)
Theorem validate_asks_in_order `{P : Crypto}
    (signature : string) (content d : bytes) (s : state) (vs : list VerifyKey) :
  b64decode signature = Ok d ->
  verifiers_cache s = Some vs ->
  exists n l,
    (n <= length vs)%nat /\
    snd (validate signature content s) = log_to l s /\
    verify_calls l = (fun f => (f, content, drop 10 d)) <$> take n vs.
Proof.
  intros Hd Hc.
  rewrite (validate_unfold _ _ _ _ _ _ Hd (make_verifiers_warm _ _ Hc)).
  destruct (validate_loop_trace vs content (drop 10 d)
              (log_to [Debug_trying (length vs)] s))
    as (n & l & Hn & Hs & Hcalls).
  exists n, ([Debug_trying (length vs)] ++ l).
  split; [done|]. rewrite Hs, log_to_app. split; [done|].
  unfold verify_calls in *. cbn. exact Hcalls.
Qed.

Lemma validate_asks_in_order_witness :
  exists n l,
    (n <= length sample.anchors)%nat /\
    snd (@validate sample.two_anchors sample.b64_sig_C sample.content sample.warm) =
      log_to l sample.warm /\
    verify_calls l =
      (fun f => (f, sample.content, sample.key_C ++ sample.key_C))
        <$> take n sample.anchors.
Proof.
  apply (@validate_asks_in_order sample.two_anchors sample.b64_sig_C
           sample.content (replicate 10 x00 ++ sample.key_C ++ sample.key_C)
           sample.warm sample.anchors);
    reflexivity.
Defined.

(** X7. Whether [validate] succeeds does not depend on the order of the
    anchors: for two cached lists that are permutations of each other, whose
    anchors verify or raise [BadSignatureError], one call returns a message
    exactly when the other does, and that is exactly when some anchor
    verifies. *)
Theorem validate_order_independent `{P : Crypto}
    (signature : string) (content d : bytes) (s s' : state)
    (vs vs' : list VerifyKey) :
  b64decode signature = Ok d ->
  verifiers_cache s = Some vs ->
  verifiers_cache s' = Some vs' ->
  vs ≡ₚ vs' ->
  (forall f e, f ∈ vs ->
     verify f content (drop 10 d) = Raise e -> e = BadSignatureError) ->
  ((exists m, fst (validate signature content s) = Ok m) <->
   (exists f, f ∈ vs /\ verifies f content (drop 10 d))) /\
  ((exists m, fst (validate signature content s) = Ok m) <->
   (exists m, fst (validate signature content s') = Ok m)).
Proof.
  intros Hd Hc Hc' Hperm Hcontract.
  rewrite (validate_unfold _ _ _ _ _ _ Hd (make_verifiers_warm _ _ Hc)).
  rewrite (validate_unfold _ _ _ _ _ _ Hd (make_verifiers_warm _ _ Hc')).
  assert (forall f e, f ∈ vs' ->
            verify f content (drop 10 d) = Raise e -> e = BadSignatureError)
    as Hcontract'.
  { intros f e Hf. apply Hcontract. by rewrite Hperm. }
  rewrite !validate_loop_ok_iff by done. split; [done|].
  split; intros (f & Hf & Hver); exists f; (split; [|done]).
  - by rewrite <- Hperm.
  - by rewrite Hperm.
Qed.

Lemma validate_order_independent_witness :
  ((exists m, fst (@validate sample.two_anchors sample.b64_sig_B sample.content
                     sample.warm) = Ok m) <->
   (exists f, f ∈ sample.anchors /\
      @verifies sample.two_anchors f sample.content (sample.key_B ++ sample.key_B))) /\
  ((exists m, fst (@validate sample.two_anchors sample.b64_sig_B sample.content
                     sample.warm) = Ok m) <->
   (exists m, fst (@validate sample.two_anchors sample.b64_sig_B sample.content
                     more_samples.warm_swapped) = Ok m)).
Proof.
  apply (@validate_order_independent sample.two_anchors sample.b64_sig_B
           sample.content (replicate 10 x00 ++ sample.key_B ++ sample.key_B)
           sample.warm more_samples.warm_swapped
           sample.anchors [sample.key_B; sample.key_C]).
  - reflexivity.
  - reflexivity.
  - reflexivity.
  - apply Permutation_swap.
  - intros f e _. cbn. unfold sample.toy_verify.
    destruct (decide _); congruence.
Defined.

(** X8. [validate] catches [BadSignatureError] only: when an anchor raises
    anything else, and all anchors before it had rejected, that exception
    leaves [validate] at once, and the anchors after it are not asked, not
    even one that would have verified. *)
Theorem validate_other_exception `{P : Crypto}
    (signature : string) (content d : bytes) (s s1 : state)
    (pre post : list VerifyKey) (f : VerifyKey) (e : exception) :
  b64decode signature = Ok d ->
  make_verifiers s = (Ok (pre ++ f :: post), s1) ->
  Forall (fun k => rejects k content (drop 10 d)) pre ->
  verify f content (drop 10 d) = Raise e ->
  e <> BadSignatureError ->
  validate signature content s =
    (Raise e,
     log_to ([Debug_trying (length (pre ++ f :: post))]
             ++ skipped content (drop 10 d) pre
             ++ [Verify_call f content (drop 10 d)]) s1).
Proof.
  intros Hd Hvs Hpre Hf Hne.
  rewrite (validate_unfold _ _ _ _ _ _ Hd Hvs).
  rewrite (validate_loop_stops pre f post _ _ e) by done.
  by rewrite log_to_app.
Qed.

Lemma validate_other_exception_witness :
  @validate more_samples.strict "AAAA" sample.content more_samples.strict_warm =
    (Raise ValueError,
     log_to ([Debug_trying 2] ++ skipped sample.content [] []
             ++ [Verify_call (sample.key_C : @VerifyKey more_samples.strict)
                   sample.content []])
       more_samples.strict_warm).
Proof.
  apply (@validate_other_exception more_samples.strict "AAAA" sample.content
           [x00; x00; x00] more_samples.strict_warm more_samples.strict_warm
           [] [sample.key_B] sample.key_C ValueError).
  - reflexivity.
  - reflexivity.
  - constructor.
  - reflexivity.
  - discriminate.
Defined.

End crypto_extras.


(* ===================================================================== *)
(** * Further properties of nm.py                                         *)
(* ===================================================================== *)

Module callback_facts.
Import nm nm_facts.

Lemma filter_delete_length {A} (p : A -> bool) (l : list A) i x :
  l !! i = Some x ->
  (length (List.filter p (delete i l)) + (if p x then 1 else 0))%nat
  = length (List.filter p l).
Proof.
  revert i. induction l as [|y l IH]; intros [|i] Hi; try done.
  - injection Hi as ->. simpl. destruct (p x); simpl; lia.
  - simpl in Hi. simpl. specialize (IH i Hi).
    destruct (p y); simpl; lia.
Qed.

Lemma holders_zero cb w : holders cb w = 0%nat <-> ~ held cb w.
Proof.
  unfold holders, held. induction (requests w) as [|r rs IH]; cbn.
  - split; [intros _; apply not_elem_of_nil|done].
  - rewrite elem_of_cons. destruct (bool_decide_reflect (user_data_of r = Some cb)) as [Hr|Hr]; cbn.
    + split; [done|]. intros Hn. exfalso. apply Hn. by left.
    + rewrite IH. split.
      * intros Hn [Heq|Hin]; [by apply Hr|by apply Hn].
      * intros Hn Hin. apply Hn. by right.
Qed.

Lemma holders_submit cb r w :
  holders cb (set_requests (requests w ++ [r]) w) =
  (holders cb w + (if bool_decide (user_data_of r = Some cb) then 1 else 0))%nat.
Proof.
  unfold holders. cbn. rewrite List.filter_app, List.length_app. cbn.
  by destruct (bool_decide _).
Qed.

(** A completion callback runs the callable it holds at most once. *)
Lemma on_finish_calls cb r res w :
  requests (snd (on_finish r res w)) = requests w /\
  (calls cb (snd (on_finish r res w)) <=
   calls cb w + (if bool_decide (user_data_of r = Some cb) then 1 else 0))%nat /\
  (is_activator r = true \/ user_data_of r <> Some cb ->
   calls cb (snd (on_finish r res w)) =
   calls cb w + (if bool_decide (user_data_of r = Some cb) then 1 else 0))%nat.
Proof.
  destruct (bool_decide_reflect (user_data_of r = Some cb)) as [Hr|Hr].
  - destruct r as [c u|rc u|c u|a u], res; cbn in Hr; subst u;
      unfold on_finish, add_connection_callback, update_connection_callback,
             activate_connection_callback, on_deactivate_connection;
      py_run; (split; [reflexivity|]);
      unfold calls; cbn;
      rewrite ?List.filter_app, ?List.length_app; cbn;
      rewrite ?Nat.eqb_refl; cbn; split; try done; try lia;
      intros [Hact|Hn]; try done; lia.
  - destruct (on_finish_frame cb r res w Hr) as (Hreq & _ & Hcalls).
    split; [done|]. rewrite Hcalls. split; [lia|]. intros _. lia.
Qed.

(** One turn of the world never raises the number of times [cb] has run
    plus the number of outstanding calls that hold it; and it keeps that
    number when the calls holding [cb] are activations or deactivations. *)
Lemma step_conserves cb w w' :
  step w w' ->
  (calls cb w' + holders cb w' <= calls cb w + holders cb w)%nat /\
  (Forall (fun r => user_data_of r = Some cb -> is_activator r = true) (requests w) ->
   Forall (fun r => user_data_of r = Some cb -> is_activator r = true) (requests w') /\
   calls cb w' + holders cb w' = calls cb w + holders cb w)%nat.
Proof.
  intros Hstep. destruct Hstep as [w w' Hidle|i res w w' Hdone|c p a b w].
  - unfold dispatch_idle in Hidle.
    destruct (idle w) as [|[uuid] rest] eqn:Hq; [done|].
    injection Hidle as <-.
    destruct (connections w !! uuid) as [x|] eqn:Hres.
    + rewrite (activate_connection_resolved uuid None _ x) by done.
      cbn [snd].
      assert (calls cb
                (set_requests (requests (set_idle rest w)
                               ++ [Activate_connection uuid None])
                   (set_journal
                      (journal (set_idle rest w) ++
                       [Log INFO "activate_connection uuid: {uuid} connection: {con}"])
                      (set_idle rest w))) = calls cb w) as ->.
      { unfold calls. cbn. rewrite List.filter_app, List.length_app. cbn. lia. }
      assert (holders cb
                (set_requests (requests (set_idle rest w)
                               ++ [Activate_connection uuid None])
                   (set_journal
                      (journal (set_idle rest w) ++
                       [Log INFO "activate_connection uuid: {uuid} connection: {con}"])
                      (set_idle rest w))) = holders cb w) as ->.
      { unfold holders. cbn. rewrite List.filter_app, List.length_app.
        cbn [List.filter user_data_of].
        rewrite bool_decide_eq_false_2 by done. cbn. lia. }
      split; [lia|]. intros Hall. split; [|lia]. cbn.
      apply Forall_app. split; [done|]. by constructor.
    + rewrite (activate_connection_unresolved uuid None) by done. cbn [snd].
      assert (calls cb
                (set_idle (idle (set_idle rest w) ++ [Retry_activate uuid])
                   (set_journal
                      (journal (set_idle rest w) ++
                       [Log INFO "activate_connection uuid: {uuid} connection: {con}";
                        Sleep 100]) (set_idle rest w))) = calls cb w) as ->.
      { unfold calls. cbn. rewrite List.filter_app, List.length_app. cbn. lia. }
      split; [done|]. by intros Hall.
  - unfold complete in Hdone.
    destruct (requests w !! i) as [r|] eqn:Hi; [|done].
    injection Hdone as <-.
    destruct (on_finish_calls cb r res
                (registered r res (set_requests (delete i (requests w)) w)))
      as (Hreq & Hle & Heq).
    destruct (registered_frame r res (set_requests (delete i (requests w)) w))
      as (Hreq' & _ & Hj & _).
    pose proof (filter_delete_length
                  (fun r => bool_decide (user_data_of r = Some cb))
                  (requests w) i r Hi) as Hdel.
    cbv beta in Hdel.
    assert (holders cb
              (snd (on_finish r res
                      (registered r res (set_requests (delete i (requests w)) w))))
            = length (List.filter (fun r => bool_decide (user_data_of r = Some cb))
                        (delete i (requests w)))) as Hh.
    { unfold holders. by rewrite Hreq, Hreq'. }
    assert (calls cb (registered r res (set_requests (delete i (requests w)) w))
            = calls cb w) as Hc.
    { unfold calls. by rewrite Hj. }
    rewrite Hc in Hle, Heq. rewrite Hh.
    change (holders cb w) with
      (length (List.filter (fun r => bool_decide (user_data_of r = Some cb))
                 (requests w))).
    split; [lia|]. intros Hall. split.
    + rewrite Hreq, Hreq'. cbn.
      rewrite Forall_forall in Hall. apply Forall_forall.
      intros r' Hr'. apply Hall. by eapply list_elem_of_delete_inv.
    + destruct (bool_decide_reflect (user_data_of r = Some cb)) as [Hr|Hr].
      * rewrite Heq; [lia|]. left. rewrite Forall_forall in Hall.
        apply Hall; [|done]. by eapply list_elem_of_lookup_2.
      * rewrite Heq; [lia|]. by right.
  - split; [done|]. by intros Hall.
Qed.

Lemma reachable_conserves cb w w' :
  rtc step w w' ->
  (calls cb w' + holders cb w' <= calls cb w + holders cb w)%nat /\
  (Forall (fun r => user_data_of r = Some cb -> is_activator r = true) (requests w) ->
   calls cb w' + holders cb w' = calls cb w + holders cb w)%nat.
Proof.
  induction 1 as [w|w w1 w' Hstep _ [IHle IHeq]]; [by split|].
  destruct (step_conserves cb w w1 Hstep) as [Hle Heq].
  split; [lia|]. intros Hall. destruct (Heq Hall) as [Hall1 Heq1].
  rewrite (IHeq Hall1). exact Heq1.
Qed.

Lemma not_held_activators cb w :
  ~ held cb w ->
  Forall (fun r => user_data_of r = Some cb -> is_activator r = true) (requests w).
Proof.
  intros Hfree. apply Forall_forall. intros r Hr Hcb. exfalso. apply Hfree.
  unfold held. apply list_elem_of_fmap. by exists r.
Qed.

(** What an operation of the activator does to the outstanding calls and
    to the count of [cb]. *)
Lemma run_operation_effect cb op callback w :
  calls cb (snd (run_operation op callback w)) = calls cb w /\
  ((submits_nothing op w /\
    requests (snd (run_operation op callback w)) = requests w) \/
   (submits op w /\
    exists r, is_activator r = true /\ user_data_of r = callback /\
      requests (snd (run_operation op callback w)) = requests w ++ [r])).
Proof.
  destruct op as [uuid|uuid]; cbn [run_operation submits_nothing submits].
  - destruct (connections w !! uuid) as [x|] eqn:Hres.
    + rewrite (activate_connection_resolved _ _ _ x) by done. cbn. split.
      * unfold calls. cbn. rewrite List.filter_app, List.length_app. cbn. lia.
      * right. split; [by eexists|].
        by exists (Activate_connection uuid callback).
    + rewrite activate_connection_unresolved by done. cbn. split.
      * unfold calls. cbn. rewrite List.filter_app, List.length_app. cbn. lia.
      * by left.
  - destruct (primary_connection w) as [c|] eqn:Hp.
    + destruct (decide (a_uuid c = uuid)) as [Hu|Hu].
      * rewrite (deactivate_connection_primary _ _ _ c) by done. cbn. split.
        { unfold calls. cbn. rewrite List.filter_app, List.length_app. cbn. lia. }
        right. split; [by exists c|].
        by exists (Deactivate_connection c callback).
      * rewrite (deactivate_connection_other _ _ _ c) by done. cbn. split.
        { unfold calls. cbn. rewrite List.filter_app, List.length_app. cbn. lia. }
        by left.
    + rewrite deactivate_connection_no_primary by done. cbn. split.
      * unfold calls. cbn. rewrite List.filter_app, List.length_app. cbn. lia.
      * by left.
Qed.

Lemma holders_app cb (rs : list request) r w w1 :
  requests w1 = requests w ++ [r] ->
  holders cb w1 =
  (holders cb w + (if bool_decide (user_data_of r = Some cb) then 1 else 0))%nat.
Proof.
  intros Hreq. unfold holders. rewrite Hreq, List.filter_app, List.length_app. cbn.
  by destruct (bool_decide _).
Qed.

(** [save_connection] submits exactly one call, an add or a commit, and
    hands it the callback. *)
Lemma save_connection_submits `{I : Importer}
    config private_key certificate callback new_con w :
  import_ovpn config private_key certificate = Ok new_con ->
  exists r w1,
    save_connection config private_key certificate callback w = (Ok tt, w1) /\
    requests w1 = requests w ++ [r] /\
    user_data_of r = callback /\
    stored_uuid w1 = stored_uuid w /\
    (forall cb, calls cb w1 = calls cb w) /\
    (r = Add_connection new_con callback \/
     exists u, stored_uuid w = Some u /\ r = Commit_changes u callback).
Proof.
  intros Himp.
  destruct (truthy_str (stored_uuid w)) eqn:Htruthy.
  - destruct (stored_uuid w) as [u|] eqn:Hst; [|done].
    destruct (connections w !! u) as [old|] eqn:Hold.
    + eexists _, _. split.
      { eapply save_connection_update; try done. by rewrite Hst. }
      cbn. repeat split; try done.
      * intros cb. unfold calls. cbn. rewrite List.filter_app, List.length_app. cbn. lia.
      * right. by exists u.
    + eexists _, _. split.
      { eapply save_connection_add; [done|]. right. exists u. by rewrite Hst. }
      cbn. repeat split; try done.
      * intros cb. unfold calls. cbn. rewrite List.filter_app, List.length_app. cbn. lia.
      * by left.
  - eexists _, _. split.
    { eapply save_connection_add; [done|]. by left. }
    cbn. repeat split; try done.
    + intros cb. unfold calls. cbn. rewrite List.filter_app, List.length_app. cbn. lia.
    + by left.
Qed.

End callback_facts.

Module nm_extras.
Import nm nm_facts callback_facts.

(** X9. A callable passed to [activate] or [deactivate], and held by no
    call outstanding before, is run at most once, whatever path the
    operation takes and whatever happens afterwards. *)
Theorem callback_at_most_once (op : operation) (cb : Callback) (w w' : World) :
  ~ held cb w ->
  rtc step (snd (run_operation op (Some cb) w)) w' ->
  (calls cb w' <= S (calls cb w))%nat.
Proof.
  intros Hfree Hreach.
  destruct (reachable_conserves cb _ _ Hreach) as [Hle _].
  apply holders_zero in Hfree.
  destruct (run_operation_effect cb op (Some cb) w)
    as [Hcalls [[_ Hreq]|[_ (r & _ & Hr & Hreq)]]].
  - assert (holders cb (snd (run_operation op (Some cb) w)) = holders cb w) as Hh.
    { unfold holders. by rewrite Hreq. }
    lia.
  - rewrite (holders_app cb (requests w) r w _ Hreq) in Hle.
    destruct (bool_decide _); lia.
Qed.

Lemma callback_at_most_once_witness :
  (calls 2 more_samples.deactivated <= S (calls 2 more_samples.world_vpn_primary))%nat.
Proof.
  apply (callback_at_most_once (Deactivate "A") 2%nat
           more_samples.world_vpn_primary more_samples.deactivated).
  - unfold held. cbn. apply not_elem_of_nil.
  - eapply rtc_l; [apply (step_complete 0 (Done "")); reflexivity|].
    apply rtc_refl.
Defined.

(** X10. On the paths on which [activate] or [deactivate] hands a call to
    the manager, the callable is run exactly once, when that call finishes
    and whether it succeeded or failed: at any later moment either the call
    is still outstanding and the callable has not run, or the call is gone
    and the callable has run once. *)
Theorem callback_exactly_once_when_submitted
    (op : operation) (cb : Callback) (w w' : World) :
  submits op w ->
  ~ held cb w ->
  rtc step (snd (run_operation op (Some cb) w)) w' ->
  (calls cb w' + holders cb w' = S (calls cb w))%nat.
Proof.
  intros Hsub Hfree Hreach.
  destruct (run_operation_effect cb op (Some cb) w)
    as [Hcalls [[Hnone _]|[_ (r & Hact & Hr & Hreq)]]].
  { exfalso. destruct op as [uuid|uuid]; cbn in Hsub, Hnone.
    - rewrite Hnone in Hsub. by destruct Hsub.
    - destruct Hsub as (c & Hc & Hu). rewrite Hc in Hnone. done. }
  destruct (reachable_conserves cb _ _ Hreach) as [_ Heq].
  rewrite Heq.
  - rewrite (holders_app cb (requests w) r w _ Hreq), Hr.
    rewrite bool_decide_eq_true_2 by done.
    apply holders_zero in Hfree. lia.
  - rewrite Hreq. apply Forall_app. split.
    + by apply not_held_activators.
    + by constructor.
Qed.

Lemma callback_exactly_once_when_submitted_witness :
  (calls 1 more_samples.activation_failed + holders 1 more_samples.activation_failed
   = S (calls 1 more_samples.world_resolved))%nat.
Proof.
  apply (callback_exactly_once_when_submitted (Activate "Y") 1%nat
           more_samples.world_resolved more_samples.activation_failed).
  - by eexists.
  - unfold held. cbn. apply not_elem_of_nil.
  - eapply rtc_l; [apply (step_complete 0 Failed); reflexivity|].
    apply rtc_refl.
Defined.

(** X11. When the add or the commit submitted by [save_connection] fails,
    its completion callback raises before it reaches the caller's callable:
    the callable is not run then and is never run later, and the identifier
    store is not written. *)
Theorem save_connection_failure_drops_callback `{I : Importer}
    (config private_key certificate : string) (cb : Callback)
    (new_con : Settings) (w w1 w2 w3 : World) :
  import_ovpn config private_key certificate = Ok new_con ->
  ~ held cb w ->
  save_connection config private_key certificate (Some cb) w = (Ok tt, w1) ->
  complete (length (requests w)) Failed w1 = Some w2 ->
  rtc step w2 w3 ->
  calls cb w3 = calls cb w /\
  stored_uuid w2 = stored_uuid w /\
  store_writes w2 = store_writes w1.
Proof.
  intros Himp Hfree Hsave Hdone Hreach.
  destruct (save_connection_submits config private_key certificate (Some cb)
              new_con w Himp)
    as (r & w1' & Hsave' & Hreq & Hr & Hst & Hcalls & Hkind).
  rewrite Hsave in Hsave'. injection Hsave' as <-.
  rewrite (complete_last r Failed w1 (requests w) Hreq) in Hdone.
  injection Hdone as <-.
  assert (snd (on_finish r Failed (registered r Failed (set_requests (requests w) w1)))
          = set_requests (requests w) w1) as Hw2.
  { destruct Hkind as [->|(u & _ & ->)]; reflexivity. }
  rewrite Hw2 in Hreach |- *.
  destruct (reachable_quiet cb _ _ Hreach) as [_ Hquiet]; [done|].
  split; [|by split].
  rewrite Hquiet. unfold calls. cbn. apply Hcalls.
Qed.

Lemma save_connection_failure_drops_callback_witness :
  let w1 := snd (@save_connection sample.importer "vpn.example.org" "key" "cert"
                   (Some 7%nat) sample.world_stale) in
  let w2 := default w1 (complete 0 Failed w1) in
  calls 7 w2 = calls 7 sample.world_stale /\
  stored_uuid w2 = stored_uuid sample.world_stale /\
  store_writes w2 = store_writes w1.
Proof.
  intros w1 w2.
  apply (@save_connection_failure_drops_callback sample.importer
           "vpn.example.org" "key" "cert" 7%nat [("remote", "vpn.example.org")]
           sample.world_stale w1 w2 w2).
  - reflexivity.
  - unfold held. cbn. apply not_elem_of_nil.
  - reflexivity.
  - reflexivity.
  - apply rtc_refl.
Defined.

(** X12. When the add or the commit submitted by [save_connection]
    succeeds, the caller's callable is run exactly once, by the completion
    callback, and never again. *)
Theorem save_connection_success_calls_back_once `{I : Importer}
    (config private_key certificate : string) (cb : Callback)
    (new_con : Settings) (value : string) (w w1 w2 w3 : World) :
  import_ovpn config private_key certificate = Ok new_con ->
  ~ held cb w ->
  save_connection config private_key certificate (Some cb) w = (Ok tt, w1) ->
  complete (length (requests w)) (Done value) w1 = Some w2 ->
  rtc step w2 w3 ->
  calls cb w2 = S (calls cb w) /\ calls cb w3 = S (calls cb w).
Proof.
  intros Himp Hfree Hsave Hdone Hreach.
  destruct (save_connection_submits config private_key certificate (Some cb)
              new_con w Himp)
    as (r & w1' & Hsave' & Hreq & Hr & Hst & Hcalls & Hkind).
  rewrite Hsave in Hsave'. injection Hsave' as <-.
  rewrite (complete_last r (Done value) w1 (requests w) Hreq) in Hdone.
  injection Hdone as <-.
  assert (requests (snd (on_finish r (Done value)
                           (registered r (Done value) (set_requests (requests w) w1))))
          = requests w /\
          calls cb (snd (on_finish r (Done value)
                           (registered r (Done value) (set_requests (requests w) w1))))
          = S (calls cb w1)) as [Hreq2 Hcalls2].
  { destruct Hkind as [->|(u & _ & ->)];
      unfold on_finish, add_connection_callback, update_connection_callback;
      py_run; (split; [reflexivity|]); unfold calls; cbn;
      rewrite !List.filter_app, !List.length_app; cbn;
      rewrite Nat.eqb_refl; cbn; lia. }
  rewrite Hcalls in Hcalls2. split; [done|].
  destruct (reachable_quiet cb _ _ Hreach) as [_ Hquiet].
  - unfold held. by rewrite Hreq2.
  - by rewrite Hquiet.
Qed.

Lemma save_connection_success_calls_back_once_witness :
  let w1 := snd (@save_connection sample.importer "vpn.example.org" "key" "cert"
                   (Some 7%nat) sample.world_known) in
  let w2 := default w1 (complete 0 (Done "") w1) in
  calls 7 w2 = S (calls 7 sample.world_known) /\
  calls 7 w2 = S (calls 7 sample.world_known).
Proof.
  intros w1 w2.
  apply (@save_connection_success_calls_back_once sample.importer
           "vpn.example.org" "key" "cert" 7%nat [("remote", "vpn.example.org")] ""
           sample.world_known w1 w2 w2).
  - reflexivity.
  - unfold held. cbn. apply not_elem_of_nil.
  - reflexivity.
  - reflexivity.
  - apply rtc_refl.
Defined.


(** X14. After an [activate] whose uuid did not resolve, once the manager
    resolves the uuid the re-entry on the loop submits the activation, with
    no callback whatever callback the first call was given, and schedules no
    further re-entry; one sleep has been taken in all. *)
Theorem retry_submits_without_callback
    (uuid : string) (callback : option Callback) (w : World)
    (conns : gmap string Settings) (p : option ActiveConnection)
    (a : list ActiveConnection) (b : list BusObject) (c : Settings) :
  connections w !! uuid = None ->
  idle w = [] ->
  conns !! uuid = Some c ->
  exists w2,
    dispatch_idle (set_manager conns p a b (snd (activate_connection uuid callback w)))
      = Some w2 /\
    idle w2 = [] /\
    requests w2 = requests w ++ [Activate_connection uuid None] /\
    sleeps w2 = S (sleeps w) /\
    stored_uuid w2 = stored_uuid w.
Proof.
  intros Hnone Hq Hres.
  rewrite activate_connection_unresolved by done. cbn [snd].
  unfold dispatch_idle. cbn [idle set_manager set_idle set_journal]. rewrite Hq.
  cbn [app]. eexists. split.
  { rewrite (activate_connection_resolved uuid None _ c) by done. reflexivity. }
  cbn. repeat split.
  unfold sleeps. cbn. rewrite !List.filter_app, !List.length_app. cbn. lia.
Qed.

Lemma retry_submits_without_callback_witness :
  exists w2,
    dispatch_idle (set_manager sample.now_known None [] []
                     (snd (activate_connection "Y" (Some 1%nat) sample.world0)))
      = Some w2 /\
    idle w2 = [] /\
    requests w2 = requests sample.world0 ++ [Activate_connection "Y" None] /\
    sleeps w2 = S (sleeps sample.world0) /\
    stored_uuid w2 = stored_uuid sample.world0.
Proof.
  apply (retry_submits_without_callback "Y" (Some 1%nat) sample.world0
           sample.now_known None [] [] [("remote", "vpn.example.org")]);
    reflexivity.
Defined.





(** X17. With exactly one active connection of type [NM.VpnConnection],
    wherever it stands among the other active connections, [get_vpn_status]
    returns its state and state reason, logs nothing and changes nothing. *)
Theorem get_vpn_status_single
    (w : World) (pre post : list ActiveConnection) (v : ActiveConnection) :
  active_connections w = pre ++ v :: post ->
  a_type v = NM_VpnConnection ->
  Forall (fun a => a_type a <> NM_VpnConnection) pre ->
  Forall (fun a => a_type a <> NM_VpnConnection) post ->
  get_vpn_status w = (Ok (a_state v, a_state_reason v), w).
Proof.
  intros Hact Hv Hpre Hpost.
  assert (vpns_of (active_connections w) = [v]) as Hvpns.
  { assert (forall l, Forall (fun a => a_type a <> NM_VpnConnection) l ->
                       vpns_of l = []) as Hnone.
    { induction 1 as [|x l Hx _ IH]; [done|].
      unfold vpns_of in *. by rewrite filter_cons_False. }
    rewrite Hact.
    change (vpns_of (pre ++ v :: post))
      with (filter (fun a => a_type a = NM_VpnConnection) (pre ++ v :: post)).
    rewrite filter_app, filter_cons_True by done.
    change (vpns_of pre ++ v :: vpns_of post = [v]).
    by rewrite !Hnone. }
  unfold get_vpn_status, bind at 1, get. cbv beta iota zeta.
  by rewrite Hvpns.
Qed.

Lemma get_vpn_status_single_witness :
  get_vpn_status more_samples.world_vpn_primary =
    (Ok (VpnConnectionState.of_raw 5, VpnConnectionStateReason.NONE),
     more_samples.world_vpn_primary).
Proof.
  apply (get_vpn_status_single more_samples.world_vpn_primary
           [sample.wired "Z"] [sample.wired "W"] (sample.vpn "A" 5)).
  - reflexivity.
  - reflexivity.
  - by repeat constructor.
  - by repeat constructor.
Defined.

Lemma first_vpn_or_none (l : list BusObject) :
  Forall (fun x => Vpn x = false) l \/
  exists pre a post,
    l = pre ++ a :: post /\ Forall (fun x => Vpn x = false) pre /\ Vpn a = true.
Proof.
  induction l as [|x l [IH|(pre & a & post & -> & Hpre & Ha)]].
  - left. constructor.
  - destruct (Vpn x) eqn:Hx.
    + right. exists [], x, l. by repeat split.
    + left. by constructor.
  - destruct (Vpn x) eqn:Hx.
    + right. exists [], x, (pre ++ a :: post). by repeat split.
    + right. exists (x :: pre), a, post. repeat split; [|done]. by constructor.
Qed.

Lemma passed_over_no_calls (l : list BusObject) :
  List.filter is_called (passed_over l) = [] /\
  List.filter (is_property_get "ActiveConnections") (passed_over l) = [].
Proof.
  induction l as [|x l [IH1 IH2]]; [done|].
  change (passed_over (x :: l))
    with ([Property_get "Id"; Property_get "Vpn"] ++ passed_over l).
  by rewrite !List.filter_app, IH1, IH2.
Qed.

(** X20. Whatever connections are active, [init_dbus_system_bus] returns
    normally having registered the callable as receiver of the signal, read
    the list of active connections once, and run the callable exactly
    once. *)
Theorem init_dbus_system_bus_reports_once (callback : Callback) (w : World) :
  exists w',
    init_dbus_system_bus callback w = (Ok tt, w') /\
    signal_receivers w' = signal_receivers w ++ [callback] /\
    exists added,
      journal w' = journal w ++ added /\
      length (List.filter is_called added) = 1%nat /\
      length (List.filter (is_property_get "ActiveConnections") added) = 1%nat.
Proof.
  destruct (first_vpn_or_none (bus_active_connections w))
    as [Hnone|(pre & a & post & Hsplit & Hpre & Ha)].
  - eexists. split.
    { unfold init_dbus_system_bus. py_run.
      rewrite scan_active_none by done. cbn. reflexivity. }
    cbn. split; [done|]. eexists. split.
    { rewrite <- !app_assoc. reflexivity. }
    destruct (passed_over_no_calls (bus_active_connections w)) as [H1 H2].
    rewrite !List.filter_app, !List.length_app, H1, H2. by cbn.
  - eexists. split.
    { unfold init_dbus_system_bus. py_run.
      rewrite Hsplit, scan_active_found by done. cbn. reflexivity. }
    cbn. split; [done|]. eexists. split.
    { rewrite <- !app_assoc. reflexivity. }
    destruct (passed_over_no_calls pre) as [H1 H2].
    rewrite !List.filter_app, !List.length_app, H1, H2. by cbn.
Qed.


End nm_extras.

Module import_extras.
Import nm_import.


Lemma nm_ovpn_import_one `{PL : Plugins} (info : VpnPluginInfo)
    (target : nat * string) (d : Disk) :
  vpn_infos = [info] ->
  nm_ovpn_import target d =
    (match import_ info (files d !! target) with
     | Ok conn => normalize conn
     | Raise e => Raise e
     end, d).
Proof.
  intros Hone. unfold nm_ovpn_import. rewrite Hone. cbn.
  unfold bind, get, lift. by destruct (import_ info (files d !! target)).
Qed.

Lemma nm_ovpn_import_not_one `{PL : Plugins} (target : nat * string) (d : Disk) :
  length vpn_infos <> 1%nat ->
  nm_ovpn_import target d = (Raise Exception_, d).
Proof.
  intros Hlen. unfold nm_ovpn_import.
  by rewrite (proj2 (Nat.eqb_neq _ _) Hlen).
Qed.



(** X19. When [nm_ovpn_import] raises (the number of plugins named
    [openvpn] is not one, or the plugin refuses the profile, or normalizing
    fails), [import_ovpn] raises the same and [rmtree] is never reached: the
    temporary directory stays on the disk, and in it the profile file with
    the private key and the certificate. *)
Theorem import_ovpn_failure_leaves_profile `{PL : Plugins}
    (config private_key certificate : string) (d : Disk) :
  (length vpn_infos <> 1%nat ->
   import_ovpn config private_key certificate d =
     (Raise Exception_, left_behind config private_key certificate d))
  /\ (forall info e,
        vpn_infos = [info] ->
        (import_ info (Some (config_text config private_key certificate)) = Raise e \/
         exists conn,
           import_ info (Some (config_text config private_key certificate)) = Ok conn /\
           normalize conn = Raise e) ->
        import_ovpn config private_key certificate d =
          (Raise e, left_behind config private_key certificate d)).
Proof.
  split.
  - intros Hlen.
    unfold import_ovpn, bind at 1, mkdtemp.
    unfold bind at 1, write_config, modify.
    unfold bind at 1. by rewrite nm_ovpn_import_not_one.
  - intros info e Hone Hfail.
    unfold import_ovpn, bind at 1, mkdtemp.
    unfold bind at 1, write_config, modify.
    unfold bind at 1. rewrite (nm_ovpn_import_one info) by done.
    cbn [files]. rewrite lookup_insert_eq.
    destruct Hfail as [->|(conn & -> & ->)]; reflexivity.
Qed.

Lemma import_ovpn_failure_leaves_profile_witness :
  @import_ovpn more_samples.no_openvpn "vpn.example.org" "key" "cert"
      more_samples.disk0 =
    (Raise Exception_,
     @left_behind more_samples.no_openvpn "vpn.example.org" "key" "cert"
       more_samples.disk0)
  /\ files (@left_behind more_samples.no_openvpn "vpn.example.org" "key" "cert"
              more_samples.disk0) !! (0%nat, "eduVPN.ovpn")
     = Some "vpn.example.orgkeycert".
Proof.
  split; [|reflexivity].
  apply (proj1 (@import_ovpn_failure_leaves_profile more_samples.no_openvpn
                  "vpn.example.org" "key" "cert" more_samples.disk0)).
  vm_compute. intros H. discriminate H.
Defined.

End import_extras.
